(** * The credential relay of token-server/src/tokenServer.ts

    A shallow embedding of the relay (execAz, getCacheHeaders, setResponse and
    the listener given to http.createServer) together with the parts of the
    JavaScript runtime and of Node's http.ServerResponse the listener goes
    through, followed by the properties of the relay's specification.

    What the relay cannot decide on its own is gathered in the record
    [Host]: the child process run by execSync, JSON.parse, Date.parse,
    Number.prototype.toString and JSON.stringify on error objects.  The
    response is what the relay hands to writeHead, write and end; of Node's
    own behaviour two things are kept: what comes back into the relay's
    control flow, namely the errors writeHead throws, and whether the text
    handed over is sent as the body of the response ([messageBody]).

    The test runner's configuration (playwright.config.ts), which starts
    the relay and waits for it, is embedded in the module [Playwright]. *)

From Stdlib Require Import ZArith Lia Ascii String DecimalString.
From stdpp Require Import base strings gmap list.

Set Warnings "-register-all".
Local Open Scope Z_scope.

(** ** Numbers

    A JavaScript number is an IEEE binary64 value.  A finite value is kept as
    the dyadic rational [m * 2^e] it denotes (both zeros are [Finite 0 0]);
    [binary64] rounds an exact dyadic to the nearest representable one, ties
    to even, so integer arithmetic is exact up to 2^53 and saturates to an
    infinity past the largest double. *)
Module Double.

Inductive number :=
| NaN
| Infinity (negative : bool)
| Finite (m e : Z).

(** [a / 2^k] for [0 < k], rounded to the nearest integer, ties to even. *)
Definition round_shift (a k : Z) : Z :=
  let q := Z.shiftr a k in
  let r := Z.land a (Z.ones k) in
  let half := Z.shiftl 1 (k - 1) in
  if (half <? r) || ((r =? half) && Z.odd q) then q + 1 else q.

Definition binary64 (m e : Z) : number :=
  let a := Z.abs m in
  let bits := Z.log2 a + 1 in
  let k := Z.max 0 (Z.max (bits - 53) (- 1074 - e)) in
  let a' := if 0 <? k then round_shift a k else a in
  if a' =? 0 then Finite 0 0
  else if 1024 <? Z.log2 a' + 1 + (e + k) then Infinity (m <? 0)
  else Finite (Z.sgn m * a') (e + k).

Definition of_Z (z : Z) : number := binary64 z 0.

(** [a - b] on numbers. *)
Definition sub (a b : number) : number :=
  match a, b with
  | NaN, _ | _, NaN => NaN
  | Infinity s, Infinity s' => if Bool.eqb s s' then NaN else Infinity s
  | Infinity s, Finite _ _ => Infinity s
  | Finite _ _, Infinity s => Infinity (negb s)
  | Finite m1 e1, Finite m2 e2 =>
      let e := Z.min e1 e2 in
      binary64 (m1 * 2 ^ (e1 - e) - m2 * 2 ^ (e2 - e)) e
  end.

(** The integer part of a finite value, rounded towards zero. *)
Definition truncate (m e : Z) : Z :=
  if 0 <=? e then m * 2 ^ e else Z.quot m (2 ^ (- e)).

(** [|m * 2^e| > bound]. *)
Definition exceeds (m e bound : Z) : bool :=
  if 0 <=? e then bound <? Z.abs m * 2 ^ e else bound * 2 ^ (- e) <? Z.abs m.

(** ToBoolean on a number: false for NaN and the zeros. *)
Definition truthy (n : number) : bool :=
  match n with
  | NaN => false
  | Infinity _ => true
  | Finite m _ => negb (m =? 0)
  end.

(** ToInt32, the conversion behind [x |= 0]. *)
Definition ToInt32 (n : number) : Z :=
  match n with
  | NaN | Infinity _ => 0
  | Finite m e => (truncate m e + 2 ^ 31) mod 2 ^ 32 - 2 ^ 31
  end.

(** [a || b] on numbers. *)
Definition or_else (a b : number) : number :=
  if truthy a then a else b.

End Double.
Export Double.

(** ** Strings

    A string is a sequence of code units; the relay only inspects the ASCII
    ones (the slash, digits, signs and white space), so 8-bit units do. *)

Definition is_digit (c : ascii) : option Z :=
  let n := Z.of_nat (nat_of_ascii c) in
  if (48 <=? n) && (n <=? 57) then Some (n - 48) else None.

(** White space and line terminators among the 8-bit code units. *)
Definition is_white_space (c : ascii) : bool :=
  let n := Z.of_nat (nat_of_ascii c) in
  ((9 <=? n) && (n <=? 13)) || (n =? 32) || (n =? 160).

Fixpoint trimStart (s : string) : string :=
  match s with
  | String c s' => if is_white_space c then trimStart s' else s
  | EmptyString => s
  end.

(** The value of the longest prefix of decimal digits, [None] when that
    prefix is empty. *)
Fixpoint parse_digits (s : string) (acc : option Z) : option Z :=
  match s with
  | String c s' =>
      match is_digit c with
      | Some d => parse_digits s' (Some (10 * default 0 acc + d))
      | None => acc
      end
  | EmptyString => acc
  end.

(** One leading sign, as a factor, and the text after it. *)
Definition strip_sign (s : string) : Z * string :=
  match s with
  | String c rest =>
      if Ascii.eqb c "-" then (-1, rest)
      else if Ascii.eqb c "+" then (1, rest)
      else (1, s)
  | EmptyString => (1, s)
  end.

(** [parseInt(x, 10)]: [x] is converted to a string first (undefined becomes
    the text undefined), leading white space and one sign are skipped, and
    the digits that follow are read and rounded to the nearest number; radix
    10 strips no prefix. *)
Definition parseInt10 (x : option string) : number :=
  let inputString := default "undefined" x in
  let '(sign, rest) := strip_sign (trimStart inputString) in
  match parse_digits rest None with
  | None => NaN
  | Some mathInt => Double.of_Z (sign * mathInt)
  end.

(** [s.split(sep)] for a separator of one code unit: the pieces between the
    occurrences of [sep], always at least one piece. *)
Fixpoint split (s : string) (sep : ascii) : list string :=
  match s with
  | EmptyString => [EmptyString]
  | String c s' =>
      if Ascii.eqb c sep then EmptyString :: split s' sep
      else match split s' sep with
           | piece :: pieces => String c piece :: pieces
           | [] => [String c EmptyString]
           end
  end.

(** ** Dates

    A Date holds a time value: an integral number of milliseconds since the
    epoch of magnitude at most 8.64e15, or NaN ([None], the invalid date). *)
Module Date.

Definition Date := option Z.

Definition maxTime : Z := 8640000000000000.
Definition msPerDay : Z := 86400000.

Definition TimeClip (time : number) : Date :=
  match time with
  | NaN | Infinity _ => None
  | Finite m e =>
      if Double.exceeds m e maxTime then None else Some (Double.truncate m e)
  end.

Definition getTime (d : Date) : number :=
  match d with
  | None => NaN
  | Some t => Double.of_Z t
  end.

Definition Day (t : Z) : Z := t / msPerDay.
Definition WeekDay (t : Z) : Z := (Day t + 4) mod 7.
Definition HourFromTime (t : Z) : Z := (t / 3600000) mod 24.
Definition MinFromTime (t : Z) : Z := (t / 60000) mod 60.
Definition SecFromTime (t : Z) : Z := (t / 1000) mod 60.

Definition DayFromYear (y : Z) : Z :=
  365 * (y - 1970) + (y - 1969) / 4 - (y - 1901) / 100 + (y - 1601) / 400.

(** The largest year whose first day is not after [t]; the estimate from
    the mean year of 365.2425 days is off by at most one. *)
Definition YearFromTime (t : Z) : Z :=
  let y := 1970 + (Day t * 400) / 146097 in
  if DayFromYear (y + 1) <=? Day t then y + 1
  else if DayFromYear y <=? Day t then y
  else y - 1.

Definition InLeapYear (t : Z) : Z :=
  DayFromYear (YearFromTime t + 1) - DayFromYear (YearFromTime t) - 365.

Definition DayWithinYear (t : Z) : Z := Day t - DayFromYear (YearFromTime t).

(** First day within the year of each month after January, leap day apart. *)
Definition monthStarts : list Z :=
  [31; 59; 90; 120; 151; 181; 212; 243; 273; 304; 334].

Definition monthStart (t m : Z) : Z :=
  if m =? 0 then 0
  else default 0 (monthStarts !! Z.to_nat (m - 1))
       + (if 2 <=? m then InLeapYear t else 0).

Definition MonthFromTime (t : Z) : Z :=
  Z.of_nat (length (filter (fun m => monthStart t m <= DayWithinYear t)
                           (seqZ 1 11))).

Definition DateFromTime (t : Z) : Z :=
  DayWithinYear t - monthStart t (MonthFromTime t) + 1.

Definition dayNames : list string :=
  ["Sun"; "Mon"; "Tue"; "Wed"; "Thu"; "Fri"; "Sat"].
Definition monthNames : list string :=
  ["Jan"; "Feb"; "Mar"; "Apr"; "May"; "Jun";
   "Jul"; "Aug"; "Sep"; "Oct"; "Nov"; "Dec"].

Fixpoint zeros (n : nat) : string :=
  match n with
  | O => EmptyString
  | S n' => String "0" (zeros n')
  end.

(** ToZeroPaddedDecimalString for a non-negative integer. *)
Definition padded (n : Z) (minLength : nat) : string :=
  let digits := NilZero.string_of_uint (N.to_uint (Z.to_N n)) in
  zeros (minLength - String.length digits) +:+ digits.

(** The date in the HTTP format: day name, day, month name, year, time, GMT. *)
Definition formatUTC (t : Z) : string :=
  let yv := YearFromTime t in
  default EmptyString (dayNames !! Z.to_nat (WeekDay t)) +:+ ", " +:+
  padded (DateFromTime t) 2 +:+ " " +:+
  default EmptyString (monthNames !! Z.to_nat (MonthFromTime t)) +:+ " " +:+
  (if 0 <=? yv then EmptyString else "-") +:+ padded (Z.abs yv) 4 +:+ " " +:+
  padded (HourFromTime t) 2 +:+ ":" +:+ padded (MinFromTime t) 2 +:+ ":" +:+
  padded (SecFromTime t) 2 +:+ " GMT".

Definition toUTCString (d : Date) : string :=
  match d with
  | None => "Invalid Date"
  | Some t => formatUTC t
  end.

End Date.
Export Date.

(** ** Values, errors and completions *)

(** What JSON.parse can return, and undefined. *)
Inductive JSValue :=
| JUndefined
| JNull
| JBoolean (b : bool)
| JNumber (n : number)
| JString (s : string)
| JArray (elements : list JSValue)
| JObject (properties : gmap string JSValue).

(** The error objects that can be thrown while a request is served.  The
    error of a failed execSync carries the exit status of the child that
    ran ([None] when there is none: the child was ended by a signal).  The
    error execSync throws when no child could be run, or when the child
    printed more than the buffer holds, is not among them: that object
    refers to itself, and JSON.stringify throws on it. *)
Inductive JsError :=
| ChildProcessError (status : option Z) (stderr : string)
| SyntaxError
| TypeError
| ERR_HTTP_HEADERS_SENT
| ERR_HTTP_INVALID_STATUS_CODE (statusCode : number).

(** [err.status]. *)
Definition status (err : JsError) : option Z :=
  match err with
  | ChildProcessError st _ => st
  | _ => None
  end.

(** A computation returns or throws. *)
Inductive Completion (A : Type) :=
| Return (a : A)
| Throw (err : JsError).
Arguments Return {A} a.
Arguments Throw {A} err.

(** ToBoolean. *)
Definition ToBoolean (v : JSValue) : bool :=
  match v with
  | JUndefined | JNull => false
  | JBoolean b => b
  | JNumber n => Double.truthy n
  | JString s => negb (String.eqb s EmptyString)
  | JArray _ | JObject _ => true
  end.

(** [v.key] for a key that no prototype defines: an own property of an
    object, undefined on every other value.  Not to be used on undefined or
    null, where the access throws. *)
Definition Get (v : JSValue) (key : string) : JSValue :=
  match v with
  | JObject properties => default JUndefined (properties !! key)
  | _ => JUndefined
  end.

(** [a && b] on values, [b] given as the value it would have. *)
Definition and_then (a b : JSValue) : JSValue :=
  if ToBoolean a then b else a.

(** [a.join(sep)] on the texts of the elements. *)
Fixpoint join (pieces : list string) (sep : string) : string :=
  match pieces with
  | [] => EmptyString
  | [piece] => piece
  | piece :: pieces' => piece +:+ sep +:+ join pieces' sep
  end.

(** The world outside the relay: the identity CLI behind execSync and the
    built-ins of the JavaScript runtime whose result the relay only passes
    on.  [execSync] is given the whole command line and is the outcome of a
    call that ends, for a child that ran: it returns the child's standard
    output, or throws; [JSON_parse] is [None] on a syntax error;
    [JSON_stringify] is taken on the errors above, which it serializes. *)
Record Host := {
  execSync : string -> Completion string;
  JSON_parse : string -> option JSValue;
  Date_parse : string -> number;
  Number_toString : number -> string;
  JSON_stringify : JsError -> string
}.

(** The response under construction (Node's http.ServerResponse): the
    status and the headers handed to writeHead and, as [body], the text
    handed to write and end.  What Node adds on the wire (its own headers)
    is not part of it; what it leaves out, the body of an answer that may
    not have one, is told by [messageBody] below. *)
Record ServerResponse := {
  headersSent : bool;
  statusCode : Z;
  headers : gmap string string;
  body : string;
  finished : bool
}.

Definition freshResponse : ServerResponse :=
  {| headersSent := false; statusCode := 200; headers := ∅;
     body := EmptyString; finished := false |}.

(** The request as the handler reads it (Node's http.IncomingMessage);
    header names are in lower case. *)
Record IncomingMessage := {
  method : option string;
  url : option string;
  req_headers : option (gmap string string)
}.

(** ** Statements: state and exceptions

    A statement runs in a world made of the response being written and the
    command lines handed to execSync so far; it returns or throws, and what
    it did before throwing stays done. *)

Record World := {
  response : ServerResponse;
  childProcesses : list string
}.

Definition Action (A : Type) : Type := World -> Completion A * World.

Definition ret {A} (a : A) : Action A := fun w => (Return a, w).

Definition throw {A} (err : JsError) : Action A := fun w => (Throw err, w).

Definition bind {A B} (m : Action A) (k : A -> Action B) : Action B :=
  fun w =>
    match m w with
    | (Return a, w') => k a w'
    | (Throw err, w') => (Throw err, w')
    end.

(** A computation without effects, as a statement. *)
Definition lift {A} (c : Completion A) : Action A := fun w => (c, w).

(** [try { body } catch (err) { handler }]. *)
Definition try_catch {A} (body : Action A) (handler : JsError -> Action A)
  : Action A :=
  fun w =>
    match body w with
    | (Return a, w') => (Return a, w')
    | (Throw err, w') => handler err w'
    end.

Notation "x <- m ;; k" := (bind m (fun x => k))
  (at level 100, m at next level, right associativity).
Notation "m ;; k" := (bind m (fun _ => k))
  (at level 100, right associativity).

Definition update (f : ServerResponse -> ServerResponse) : Action unit :=
  fun w =>
    (Return (),
     {| response := f (response w); childProcesses := childProcesses w |}).

(** [response.writeHead(statusCode, headers)].  Node refuses a second head,
    and a status that, taken as a 32-bit integer, is outside 100..999. *)
Definition writeHead (code : number) (hdrs : gmap string string)
  : Action unit :=
  fun w =>
    if headersSent (response w) then throw ERR_HTTP_HEADERS_SENT w
    else
      let sc := Double.ToInt32 code in
      if (sc <? 100) || (999 <? sc)
      then throw (ERR_HTTP_INVALID_STATUS_CODE code) w
      else update (fun res =>
             {| headersSent := true; statusCode := sc; headers := hdrs;
                body := body res; finished := finished res |}) w.

(** [response.write(chunk)]. *)
Definition write (chunk : string) : Action unit :=
  update (fun res =>
    {| headersSent := true; statusCode := statusCode res;
       headers := headers res; body := body res +:+ chunk;
       finished := finished res |}).

(** [response.end(chunk)], the chunk being optional. *)
Definition end_ (chunk : option string) : Action unit :=
  update (fun res =>
    {| headersSent := true; statusCode := statusCode res;
       headers := headers res;
       body := match chunk with
               | Some text => body res +:+ text
               | None => body res
               end;
       finished := true |}).

(** The world before a request is served. *)
Definition idle : World :=
  {| response := freshResponse; childProcesses := [] |}.

(** The world after one more child process was run. *)
Definition spawned (commandLine : string) (w : World) : World :=
  {| response := response w;
     childProcesses := childProcesses w ++ [commandLine] |}.

(** [x === s] for a possibly undefined string [x]. *)
Definition strict_eq (x : option string) (s : string) : bool :=
  match x with
  | Some y => String.eqb y s
  | None => false
  end.

(** ToBoolean of a possibly undefined string. *)
Definition truthy_string (x : option string) : bool :=
  match x with
  | Some y => negb (String.eqb y EmptyString)
  | None => false
  end.

(** ** What Node sends

    The response Node sends has the status and the headers handed to
    writeHead, but not always the text handed to write and end.  Node's
    ServerResponse keeps a flag, _hasBody: its constructor clears it when
    the request method is HEAD, writeHead clears it for a status 1xx, 204 or
    304, and while it is cleared write and end drop the chunk they are
    given.  The head is settled before the first chunk and is not written
    twice, so the body sent is all of the text handed over or none of it. *)

(** The statuses whose response has no body. *)
Definition bodiless (sc : Z) : bool :=
  (sc =? 204) || (sc =? 304) || ((100 <=? sc) && (sc <=? 199)).

(** [response._hasBody], once the head is written. *)
Definition hasBody (request : IncomingMessage) (res : ServerResponse) : bool :=
  negb (strict_eq (method request) "HEAD") && negb (bodiless (statusCode res)).

(** The body of the response Node sends. *)
Definition messageBody (request : IncomingMessage) (res : ServerResponse)
  : string :=
  if hasBody request res then body res else EmptyString.

(** The clause a [switch] on the first path segment selects: the first
    case label strictly equal to the key, else the default clause. *)
Inductive Clause :=
| case_token | case_logout | case_login | case_user | case_httpcode
| case_default.

Definition switch (key : option string) : Clause :=
  if strict_eq key "token" then case_token
  else if strict_eq key "logout" then case_logout
  else if strict_eq key "login" then case_login
  else if strict_eq key "user" then case_user
  else if strict_eq key "httpcode" then case_httpcode
  else case_default.

(** ** The relay *)
Section Relay.

Variable host : Host.

(** ToString.  An array joins the texts of its elements with commas, null
    and undefined elements counting as empty; an object takes the text of
    Object.prototype.toString unless an own property (never callable, coming
    from JSON) hides that method, in which case the conversion throws. *)
Fixpoint ToString (v : JSValue) : Completion string :=
  match v with
  | JUndefined => Return "undefined"
  | JNull => Return "null"
  | JBoolean b => Return (if b then "true" else "false")
  | JNumber n => Return (Number_toString host n)
  | JString s => Return s
  | JArray elements =>
      let fix texts (l : list JSValue) : Completion (list string) :=
        match l with
        | [] => Return []
        | element :: l' =>
            let first :=
              match element with
              | JUndefined | JNull => Return EmptyString
              | _ => ToString element
              end in
            match first, texts l' with
            | Return s, Return ss => Return (s :: ss)
            | Throw err, _ => Throw err
            | _, Throw err => Throw err
            end
        end in
      match texts elements with
      | Return pieces => Return (join pieces ",")
      | Throw err => Throw err
      end
  | JObject properties =>
      match properties !! "toString" with
      | Some _ => Throw TypeError
      | None => Return "[object Object]"
      end
  end.

(** [new Date(value)]: a string is parsed, an array or object is converted
    to a string and parsed, anything else is converted to a number. *)
Definition new_Date (value : JSValue) : Completion Date :=
  match value with
  | JString s => Return (TimeClip (Date_parse host s))
  | JArray _ | JObject _ =>
      match ToString value with
      | Return s => Return (TimeClip (Date_parse host s))
      | Throw err => Throw err
      end
  | JNumber n => Return (TimeClip n)
  | JBoolean b => Return (TimeClip (Double.of_Z (if b then 1 else 0)))
  | JNull => Return (TimeClip (Double.of_Z 0))
  | JUndefined => Return None
  end.

(** [JSON.parse(text)]. *)
Definition parse (text : string) : Completion JSValue :=
  match JSON_parse host text with
  | Some v => Return v
  | None => Throw SyntaxError
  end.

(** [execSync(commandLine, { encoding: "utf-8" })]. *)
Definition run (commandLine : string) : Action string :=
  fun w => (execSync host commandLine, spawned commandLine w).

Definition execAz (cmd : string) : Action (option string) :=
  try_catch
    (response <- run ("az " +:+ cmd) ;;
     ret (Some response))
    (fun err =>
       if negb (bool_decide (status err = Some 1)) then throw err
       else ret None).

(** The catch clause also prints the error on the relay's console, which
    no caller sees; the model leaves the console out. *)
Definition getCacheHeaders (tokenJson : option string)
  : Action (gmap string string) :=
  let validUntilBeforeExpirySec := 5 * 60 in
  try_catch
    (auth <- lift (if truthy_string tokenJson
                   then parse (default EmptyString tokenJson)
                   else Return JUndefined) ;;
     if ToBoolean (and_then auth (Get auth "expiresOn")) then
       expiresOn <- lift (new_Date (Get auth "expiresOn")) ;;
       let cacheExpires :=
         TimeClip
           (Double.sub (getTime expiresOn)
                       (Double.of_Z (validUntilBeforeExpirySec * 1000))) in
       ret ({[ "Cache-Control" := "private";
               "Expires" := toUTCString cacheExpires ]} : gmap string string)
     else ret ∅)
    (fun e => ret ∅).

(** [(request.headers && request.headers[name]) || fallback]. *)
Definition header_or (request : IncomingMessage) (name fallback : string)
  : string :=
  match req_headers request with
  | Some hs =>
      match hs !! name with
      | Some v => if String.eqb v EmptyString then fallback else v
      | None => fallback
      end
  | None => fallback
  end.

(** The object literal handed to writeHead: three fixed names, then the
    spread of [headers], whose entries win. *)
Definition responseHeaders (request : IncomingMessage)
    (headers : gmap string string) : gmap string string :=
  headers ∪
  {[ "Content-Type" := "text/plain";
     "Access-Control-Allow-Origin" := header_or request "origin" "self";
     "Access-Control-Allow-Headers" :=
       header_or request "access-control-request-headers" "*" ]}.

(** The helper the listener defines over its request and response; where
    the source leaves [headers] out, the default is the empty object. *)
Definition setResponse (request : IncomingMessage) (code : number)
    (content : option string) (headers : gmap string string) : Action unit :=
  writeHead code (responseHeaders request headers) ;;
  end_ content.

(** The listener given to http.createServer. *)
Definition handler (request : IncomingMessage) : Action unit :=
  try_catch
    (if strict_eq (method request) "OPTIONS" then
       setResponse request (Double.of_Z 200) None ∅
     else if negb (truthy_string (url request)) then
       setResponse request (Double.of_Z 404) (Some "Empty url") ∅
     else
       let url := default EmptyString (url request) in
       let urlArr := split url "/" in
       match switch (urlArr !! 1%nat) with
       | case_token =>
           tokenJson <- execAz "account get-access-token -o json" ;;
           headers <- getCacheHeaders tokenJson ;;
           setResponse request (Double.of_Z 200) tokenJson headers
       | case_logout =>
           content <- execAz "logout" ;;
           setResponse request (Double.of_Z 200) content ∅
       | case_login =>
           content <- execAz "login" ;;
           setResponse request (Double.of_Z 200) content ∅
       | case_user =>
           content <- execAz "account show -o json" ;;
           setResponse request (Double.of_Z 200) content ∅
       | case_httpcode =>
           setResponse request
             (Double.or_else (parseInt10 (urlArr !! 2%nat)) (Double.of_Z 404))
             (urlArr !! 2%nat) ∅
       | case_default =>
           setResponse request (Double.of_Z 404)
             (Some ("Unsupported url " +:+ url)) ∅
       end)
    (fun err =>
       writeHead (Double.of_Z 500) ∅ ;;
       write (JSON_stringify host err) ;;
       end_ None).

(** Serving one request: the handler run on a response nothing has been
    written to. *)
Definition serve (request : IncomingMessage) : Completion unit * World :=
  handler request idle.

Definition served (request : IncomingMessage) : ServerResponse :=
  response (serve request).2.

Definition invoked (request : IncomingMessage) : list string :=
  childProcesses (serve request).2.

End Relay.

(** * Vocabulary of the specification *)

(** The text before the first slash of [s] (all of [s] when it has none)
    and the text after that slash. *)
Fixpoint before_slash (s : string) : string :=
  match s with
  | EmptyString => EmptyString
  | String c s' => if Ascii.eqb c "/" then EmptyString
                   else String c (before_slash s')
  end.

Fixpoint after_slash (s : string) : option string :=
  match s with
  | EmptyString => None
  | String c s' => if Ascii.eqb c "/" then Some s' else after_slash s'
  end.

(** The first path segment: the raw text between the first slash of the
    URL and the second (or the end); the argument is the segment after it. *)
Definition first_segment (u : string) : option string :=
  before_slash <$> after_slash u.

Definition second_segment (u : string) : option string :=
  before_slash <$> (after_slash u ≫= after_slash).

Fixpoint slash_free (s : string) : bool :=
  match s with
  | EmptyString => true
  | String c s' => negb (Ascii.eqb c "/") && slash_free s'
  end.

(** The routes that run the identity CLI, and all the routes of the table. *)
Definition cli_routes : list string := ["token"; "logout"; "login"; "user"].
Definition known_routes : list string := cli_routes ++ ["httpcode"].

(** The request is addressed to [route]. *)
Definition routed (request : IncomingMessage) (route : string) : Prop :=
  exists u, url request = Some u /\ first_segment u = Some route.

(** The value of a text made of decimal digits only, continuing [acc]. *)
Fixpoint digits_value (s : string) (acc : Z) : option Z :=
  match s with
  | EmptyString => Some acc
  | String c s' =>
      match is_digit c with
      | Some d => digits_value s' (10 * acc + d)
      | None => None
      end
  end.

(** A valid integer string: an optional sign and one or more decimal
    digits, nothing else; its value. *)
Definition decimal_integer (s : string) : option Z :=
  let '(sign, digits) := strip_sign s in
  match digits with
  | EmptyString => None
  | _ => (fun n => sign * n) <$> digits_value digits 0
  end.

(** [x] begins, after optional white space, with an optionally signed
    decimal digit. *)
Definition begins_with_integer (x : string) : bool :=
  match (strip_sign (trimStart x)).2 with
  | String c _ => bool_decide (is_Some (is_digit c))
  | EmptyString => false
  end.

(** The parsed value is an object with an own property [key]. *)
Definition has_field (v : JSValue) (key : string) : Prop :=
  match v with
  | JObject properties => is_Some (properties !! key)
  | _ => False
  end.

(** The same request for another URL. *)
Definition to (request : IncomingMessage) (u : string) : IncomingMessage :=
  {| method := method request; url := Some u;
     req_headers := req_headers request |}.

(** A response nothing was written to, whatever was run so far. *)
Definition untouched (w : World) : Prop := response w = freshResponse.

(** The world after a whole response was written at once. *)
Definition answered (sc : Z) (hdrs : gmap string string) (content : string)
    (w : World) : World :=
  {| response := {| headersSent := true; statusCode := sc; headers := hdrs;
                    body := content; finished := true |};
     childProcesses := childProcesses w |}.

(** A request that reaches the switch: neither a preflight nor without URL. *)
Definition dispatched (request : IncomingMessage) (u : string) : Prop :=
  strict_eq (method request) "OPTIONS" = false /\
  url request = Some u /\ u <> EmptyString.

(** What setResponse adds to every response it writes. *)
Definition reflects_the_request (request : IncomingMessage)
    (hdrs : gmap string string) : Prop :=
  hdrs !! "Content-Type" = Some "text/plain" /\
  hdrs !! "Access-Control-Allow-Origin"
    = Some (header_or request "origin" "self") /\
  hdrs !! "Access-Control-Allow-Headers"
    = Some (header_or request "access-control-request-headers" "*").

Section Outcomes.

Variable host : Host.

(** The cache headers are computed without effect and without throwing. *)
Definition cacheHeaders (tokenJson : option string) : gmap string string :=
  match (getCacheHeaders host tokenJson idle).1 with
  | Return hdrs => hdrs
  | Throw _ => ∅
  end.

(** What a clause that runs the identity CLI answers, [cache] being the
    headers it adds for a given output. *)
Definition cli_response (request : IncomingMessage) (cmd : string)
    (cache : option string -> gmap string string) : Completion unit * World :=
  let w := spawned ("az " +:+ cmd) idle in
  match execSync host ("az " +:+ cmd) with
  | Return out =>
      (Return (),
       answered 200 (responseHeaders request (cache (Some out))) out w)
  | Throw err =>
      if bool_decide (status err = Some 1)
      then (Return (),
            answered 200 (responseHeaders request (cache None)) EmptyString w)
      else (Return (), answered 500 ∅ (JSON_stringify host err) w)
  end.

End Outcomes.

(** ** Sample hosts and requests *)
Module Sample.

Definition quote : string := String "034" EmptyString.

(** The JSON text of an object with one property, a string. *)
Definition tokenText (expiresOn : string) : string :=
  "{" +:+ quote +:+ "expiresOn" +:+ quote +:+ ":" +:+
  quote +:+ expiresOn +:+ quote +:+ "}".

Definition expiries : list string :=
  ["2023-11-14T22:13:20.000Z"; "-271821-04-20T00:00:00.000Z"; "soon";
   EmptyString].

(** JSON.parse on the texts used below: the token texts and the empty
    object; every other text is taken as a syntax error. *)
Definition parseJSON (text : string) : option JSValue :=
  if String.eqb text "{}" then Some (JObject ∅)
  else
    (fun e => JObject {[ "expiresOn" := JString e ]}) <$>
    List.find (fun e => String.eqb text (tokenText e)) expiries.

(** Date.parse on the two dates used below. *)
Definition parseDate (s : string) : number :=
  if String.eqb s "2023-11-14T22:13:20.000Z" then Double.of_Z 1700000000000
  else if String.eqb s "-271821-04-20T00:00:00.000Z"
       then Double.of_Z (- 8640000000000000)
  else NaN.

(** JSON.stringify on an error, reduced to the status or the code. *)
Definition stringify (err : JsError) : string :=
  match err with
  | ChildProcessError (Some st) _ =>
      "{" +:+ quote +:+ "status" +:+ quote +:+ ":" +:+ padded st 1 +:+ "}"
  | ChildProcessError None _ =>
      "{" +:+ quote +:+ "status" +:+ quote +:+ ":null}"
  | ERR_HTTP_INVALID_STATUS_CODE _ =>
      "{" +:+ quote +:+ "code" +:+ quote +:+ ":" +:+
      quote +:+ "ERR_HTTP_INVALID_STATUS_CODE" +:+ quote +:+ "}"
  | ERR_HTTP_HEADERS_SENT =>
      "{" +:+ quote +:+ "code" +:+ quote +:+ ":" +:+
      quote +:+ "ERR_HTTP_HEADERS_SENT" +:+ quote +:+ "}"
  | SyntaxError | TypeError => "{}"
  end.

(** A host whose identity CLI behaves as [cli]. *)
Definition host (cli : string -> Completion string) : Host :=
  {| execSync := cli; JSON_parse := parseJSON; Date_parse := parseDate;
     Number_toString := fun _ => "0"; JSON_stringify := stringify |}.

(** The CLI exits with [st] whatever it is asked. *)
Definition exits (st : Z) : string -> Completion string :=
  fun _ => Throw (ChildProcessError (Some st) "ERROR: Please run az login").

(** The CLI prints [out] whatever it is asked. *)
Definition prints (out : string) : string -> Completion string :=
  fun _ => Return out.

Definition browser : gmap string string :=
  {[ "host" := "127.0.0.1:3001"; "origin" := "http://localhost:3000" ]}.

Definition get (u : string) : IncomingMessage :=
  {| method := Some "GET"; url := Some u; req_headers := Some browser |}.

Definition options (u : option string) : IncomingMessage :=
  {| method := Some "OPTIONS"; url := u; req_headers := Some browser |}.

End Sample.

(** * Further vocabulary *)

(** [request.headers[name]], undefined when there are no headers. *)
Definition header (request : IncomingMessage) (name : string) : option string :=
  req_headers request ≫= (fun hs => hs !! name).

(** The arguments handed to the identity CLI on each of its routes. *)
Definition cli_command (route : string) : option string :=
  if String.eqb route "token" then Some "account get-access-token -o json"
  else if String.eqb route "logout" then Some "logout"
  else if String.eqb route "login" then Some "login"
  else if String.eqb route "user" then Some "account show -o json"
  else None.

(** The first path segment of the request's URL, if any. *)
Definition route_of (request : IncomingMessage) : option string :=
  url request ≫= first_segment.

(** [value || fallback] for a possibly undefined string. *)
Definition or_fallback (value : option string) (fallback : string) : string :=
  match value with
  | Some v => if String.eqb v EmptyString then fallback else v
  | None => fallback
  end.

(** [rest] is empty or begins with something else than a decimal digit. *)
Definition begins_without_digit (rest : string) : bool :=
  match rest with
  | String c _ => bool_decide (is_digit c = None)
  | EmptyString => true
  end.

(** The same request under another method. *)
Definition with_method (request : IncomingMessage) (m : option string)
  : IncomingMessage :=
  {| method := m; url := url request; req_headers := req_headers request |}.

(** The port the relay listens on: [http.createServer(...).listen(3001)]. *)
Definition listenPort : Z := 3001.

(** ** The test runner's configuration (playwright.config.ts)

    The module computes its configuration from three environment variables
    when it is loaded, and refuses to load for an unknown environment. *)
Module Playwright.

(** [s.trimEnd()] and [s.trim()]. *)
Fixpoint trimEnd (s : string) : string :=
  match s with
  | EmptyString => EmptyString
  | String c s' =>
      match trimEnd s' with
      | EmptyString =>
          if is_white_space c then EmptyString else String c EmptyString
      | kept => String c kept
      end
  end.

Definition trim (s : string) : string := trimEnd (trimStart s).

(** The variables of [process.env] the module reads. *)
Record Env := {
  ENVIRONMENT : option string;
  TAG : option string;
  CI : option string
}.

(** The values taken from constants.ts. *)
Definition timeouts_expect : Z := 10000.
Definition timeouts_setup : Z := 120000.

Record WebServer := {
  command : string;
  port : Z;
  timeout : Z;
  reuseExistingServer : bool;
  stdout : option string
}.

Record Use := {
  baseURL : option string;
  testIdAttribute : string;
  locale : string;
  timezoneId : string;
  trace : string;
  screenshot : string;
  ignoreHTTPSErrors : option bool
}.

(** A project names the device descriptor of Playwright it spreads. *)
Record Project := {
  name : string;
  device : string
}.

Record Config := {
  testDir : string;
  fullyParallel : bool;
  forbidOnly : bool;
  retries : Z;
  workers : Z;
  use : Use;
  expect_timeout : Z;
  projects : list Project;
  webServer : list WebServer;
  reporter : list (string * gmap string string)
}.

Definition validEnvironments : list string :=
  ["prod"; "int"; "dev"; "local"; "canary"].

Definition baseUrlMap : gmap string string :=
  {[ "prod" := "https://ai.azure.com/";
     "int" := "https://int.ai.azure.com/";
     "dev" := "https://dev.ai.azure.com/";
     "local" := "https://dev.ai.azure.com/";
     "canary" := "https://eastus2euap.ai.azure.com/" ]}.

Definition oaiBaseUrlMap : gmap string string :=
  {[ "prod" := "https://oai.azure.com/";
     "int" := "https://int.oai.azure.com/";
     "dev" := "https://dev.oai.azure.com/";
     "local" := "https://dev.oai.azure.com/";
     "canary" := "https://canary.oai.azure.com/" ]}.

Definition tokenServer : WebServer :=
  {| command := "yarn --cwd ./../../ start-token-server"; port := 3001;
     timeout := timeouts_setup; reuseExistingServer := true;
     stdout := None |}.

Definition previewAIStudioWebServer : WebServer :=
  {| command := "yarn --cwd ./../../ preview:ai-studio"; port := 443;
     timeout := timeouts_setup; reuseExistingServer := true;
     stdout := Some "pipe" |}.

Definition startAIStudioWebServer : WebServer :=
  {| command := "yarn --cwd ./../../ start:ai-studio"; port := 443;
     timeout := timeouts_setup; reuseExistingServer := true;
     stdout := Some "pipe" |}.

Section Loading.

Variable env : Env.

Definition environment : string :=
  trim (or_fallback (ENVIRONMENT env) "local").

Definition tag : string := trim (or_fallback (TAG env) EmptyString).

Definition resultsPrefix : string :=
  if negb (String.eqb tag EmptyString) then tag +:+ "-" +:+ environment
  else environment.

Definition defaultConfig : Config :=
  {| testDir := "./tests/";
     fullyParallel := false;
     forbidOnly := truthy_string (CI env);
     retries := if truthy_string (CI env) then 1 else 0;
     workers := if truthy_string (CI env) then 2 else 1;
     use :=
       {| baseURL := baseUrlMap !! environment;
          testIdAttribute := "data-automation-id";
          locale := "en-US";
          timezoneId := "America/Los_Angeles";
          trace := "on-first-retry";
          screenshot :=
            if truthy_string (CI env) then "only-on-failure" else "off";
          ignoreHTTPSErrors := None |};
     expect_timeout := timeouts_expect;
     projects := [ {| name := "chromium"; device := "Desktop Chrome" |} ];
     webServer := [tokenServer];
     reporter :=
       [ ("list", ∅);
         ("html",
          {[ "outputFolder" :=
               "tests-e2e-playwright/test-results/" +:+ resultsPrefix
               +:+ "-playwright-report";
             "open" := "never" ]});
         ("junit",
          {[ "outputFile" :=
               "tests-e2e-playwright/test-results/" +:+ resultsPrefix
               +:+ "-test-results.xml" ]});
         ("json",
          {[ "outputFile" :=
               "tests-e2e-playwright/test-results/" +:+ resultsPrefix
               +:+ "-test-results.json" ]}) ] |}.

(** [{ ...config, use: { ...config.use, ignoreHTTPSErrors: true },
       webServer: servers }]. *)
Definition localConfig : Config :=
  {| testDir := testDir defaultConfig;
     fullyParallel := fullyParallel defaultConfig;
     forbidOnly := forbidOnly defaultConfig;
     retries := retries defaultConfig;
     workers := workers defaultConfig;
     use :=
       {| baseURL := baseURL (use defaultConfig);
          testIdAttribute := testIdAttribute (use defaultConfig);
          locale := locale (use defaultConfig);
          timezoneId := timezoneId (use defaultConfig);
          trace := trace (use defaultConfig);
          screenshot := screenshot (use defaultConfig);
          ignoreHTTPSErrors := Some true |};
     expect_timeout := expect_timeout defaultConfig;
     projects := projects defaultConfig;
     webServer := startAIStudioWebServer :: webServer defaultConfig;
     reporter := reporter defaultConfig |}.

Definition devConfig : Config :=
  {| testDir := testDir localConfig;
     fullyParallel := fullyParallel localConfig;
     forbidOnly := forbidOnly localConfig;
     retries := retries localConfig;
     workers := workers localConfig;
     use := use localConfig;
     expect_timeout := expect_timeout localConfig;
     projects := projects localConfig;
     webServer := previewAIStudioWebServer :: webServer defaultConfig;
     reporter := reporter localConfig |}.

Definition configMap : gmap string Config :=
  {[ "prod" := defaultConfig; "int" := defaultConfig;
     "dev" := devConfig; "local" := localConfig ]}.

(** What loading the module gives: the error thrown for an unknown
    environment, or the configuration exported by default (defineConfig
    hands its argument back) together with the exported [oaiBaseURL]. *)
Definition load : string + Config * option string :=
  if negb (bool_decide (environment ∈ validEnvironments)) then
    inl ("Invalid environment: " +:+ environment +:+ ". Expected one of "
         +:+ join validEnvironments ", ")
  else
    let config := default localConfig (configMap !! environment) in
    let oaiBaseURL :=
      oaiBaseUrlMap !! (or_fallback (Some environment) "local") in
    inr (config, oaiBaseURL).

End Loading.

End Playwright.

(** [is_white_space] on every code unit. *)
Fixpoint blank (s : string) : bool :=
  match s with
  | EmptyString => true
  | String c s' => is_white_space c && blank s'
  end.

(** * Properties of the runtime model *)

(** ** The model on concrete inputs *)

Example binary64_ties_to_even :
  Double.of_Z (2 ^ 53 + 1) = Finite (2 ^ 52) 1 /\
  Double.of_Z (2 ^ 53 + 3) = Finite (2 ^ 52 + 2) 1 /\
  Double.of_Z (2 ^ 1024) = Infinity false.
Proof. repeat split. Qed.

Example ToInt32_wraps :
  Double.ToInt32 (Double.of_Z (2 ^ 32 + 200)) = 200 /\
  Double.ToInt32 (Double.of_Z (2 ^ 31)) = - 2 ^ 31.
Proof. repeat split. Qed.

Example parseInt10_reads :
  parseInt10 (Some "  -12abc") = Finite (-12) 0 /\
  parseInt10 (Some "+7") = Finite 7 0 /\
  parseInt10 (Some "abc") = NaN /\
  parseInt10 (Some EmptyString) = NaN /\
  parseInt10 None = NaN.
Proof. repeat split. Qed.

Example split_pieces :
  split "/token/extra" "/" = [EmptyString; "token"; "extra"] /\
  split "/httpcode" "/" = [EmptyString; "httpcode"] /\
  split "*" "/" = ["*"] /\
  split EmptyString "/" = [EmptyString].
Proof. repeat split. Qed.

Example toUTCString_dates :
  toUTCString (Some 0) = "Thu, 01 Jan 1970 00:00:00 GMT" /\
  toUTCString (Some 951782400000) = "Tue, 29 Feb 2000 00:00:00 GMT" /\
  toUTCString (Some 1700000000000) = "Tue, 14 Nov 2023 22:13:20 GMT" /\
  toUTCString (Some (- 1)) = "Wed, 31 Dec 1969 23:59:59 GMT" /\
  toUTCString (Some maxTime) = "Sat, 13 Sep 275760 00:00:00 GMT" /\
  toUTCString (Some (- maxTime)) = "Tue, 20 Apr -271821 00:00:00 GMT" /\
  toUTCString None = "Invalid Date".
Proof. repeat split. Qed.

(** From 1600 to 2400 the year of a time is the year whose days hold it. *)
Example YearFromTime_brackets :
  forallb (fun y =>
             (YearFromTime (DayFromYear y * msPerDay) =? y) &&
             (YearFromTime (DayFromYear (y + 1) * msPerDay - 1) =? y))
          (seqZ 1600 800) = true.
Proof. vm_compute. reflexivity. Qed.

Example token_response :
  serve (Sample.host (Sample.prints
           (Sample.tokenText "2023-11-14T22:13:20.000Z")))
        (Sample.get "/token/") =
  (Return (),
   {| response :=
        {| headersSent := true; statusCode := 200;
           headers :=
             {[ "Content-Type" := "text/plain";
                "Access-Control-Allow-Origin" := "http://localhost:3000";
                "Access-Control-Allow-Headers" := "*";
                "Cache-Control" := "private";
                "Expires" := "Tue, 14 Nov 2023 22:08:20 GMT" ]};
           body := Sample.tokenText "2023-11-14T22:13:20.000Z";
           finished := true |};
      childProcesses := ["az account get-access-token -o json"] |}).
Proof. vm_compute. reflexivity. Qed.

(** ** Exact arithmetic on integers *)

Lemma of_Z_exact z : Z.abs z < 2 ^ 53 -> Double.of_Z z = Finite z 0.
Proof.
  intros Hz. unfold Double.of_Z, Double.binary64.
  destruct (Z.eq_dec z 0) as [-> | Hnz]; [reflexivity |].
  assert (Hpos : 0 < Z.abs z) by lia.
  assert (Hlog : Z.log2 (Z.abs z) < 53) by (apply Z.log2_lt_pow2; lia).
  assert (Hlog0 : 0 <= Z.log2 (Z.abs z)) by apply Z.log2_nonneg.
  replace (Z.max 0 (Z.max (Z.log2 (Z.abs z) + 1 - 53) (- 1074 - 0)))
    with 0 by lia.
  change (0 <? 0) with false. cbv iota.
  destruct (Z.eqb_spec (Z.abs z) 0) as [E | _]; [lia |].
  destruct (Z.ltb_spec 1024 (Z.log2 (Z.abs z) + 1 + (0 + 0))) as [E | _];
    [lia |].
  f_equal. destruct z; simpl; lia.
Qed.

Lemma ToInt32_exact z :
  - 2 ^ 31 <= z < 2 ^ 31 -> Double.ToInt32 (Finite z 0) = z.
Proof.
  intros Hz. unfold Double.ToInt32, Double.truncate.
  change (0 <=? 0) with true. cbv iota. rewrite Z.pow_0_r, Z.mul_1_r.
  change (2 ^ 31) with 2147483648 in *. change (2 ^ 32) with 4294967296.
  rewrite Z.mod_small; lia.
Qed.

Lemma TimeClip_exact t :
  Z.abs t <= maxTime -> TimeClip (Finite t 0) = Some t.
Proof.
  intros Ht. unfold TimeClip, Double.exceeds, Double.truncate.
  change (0 <=? 0) with true. cbv iota. rewrite Z.pow_0_r, !Z.mul_1_r.
  destruct (Z.ltb_spec maxTime (Z.abs t)); [lia | reflexivity].
Qed.

(** A valid date's time value is within the range of dates. *)
Lemma TimeClip_range n t : TimeClip n = Some t -> Z.abs t <= maxTime.
Proof.
  destruct n as [| s | m e]; simpl; try discriminate.
  unfold Double.exceeds, Double.truncate.
  destruct (Z.leb_spec 0 e) as [He | He].
  - destruct (Z.ltb_spec maxTime (Z.abs m * 2 ^ e)) as [| Hle];
      [discriminate |].
    intros [= <-]. rewrite Z.abs_mul, (Z.abs_eq (2 ^ e)); [lia |].
    apply Z.pow_nonneg; lia.
  - destruct (Z.ltb_spec (maxTime * 2 ^ (- e)) (Z.abs m)) as [| Hle];
      [discriminate |].
    intros [= <-].
    assert (Hp : 0 < 2 ^ (- e)) by (apply Z.pow_pos_nonneg; lia).
    rewrite <- Z.quot_abs by lia. rewrite (Z.abs_eq (2 ^ (- e))) by lia.
    rewrite Z.quot_div_nonneg by lia.
    apply Z.div_le_upper_bound; lia.
Qed.

(** Five minutes before a valid date, when that is still a date. *)
Lemma five_minutes_before t :
  Z.abs t <= maxTime -> - maxTime <= t - 300000 ->
  TimeClip (Double.sub (getTime (Some t)) (Double.of_Z (5 * 60 * 1000)))
  = Some (t - 300000).
Proof.
  intros Ht Hlow. unfold maxTime in *.
  unfold getTime. rewrite (of_Z_exact t) by lia.
  rewrite (of_Z_exact (5 * 60 * 1000)) by lia.
  unfold Double.sub. change (Z.min 0 0) with 0.
  change (2 ^ (0 - 0)) with 1. rewrite !Z.mul_1_r.
  fold (Double.of_Z (t - 5 * 60 * 1000)).
  rewrite of_Z_exact by lia.
  replace (t - 5 * 60 * 1000) with (t - 300000) by lia.
  apply TimeClip_exact. unfold maxTime. lia.
Qed.

(** ** Splitting a URL *)

Lemma split_slash u :
  split u "/" =
  before_slash u ::
    match after_slash u with Some rest => split rest "/" | None => [] end.
Proof.
  induction u as [| c u IH]; simpl; [reflexivity |].
  destruct (Ascii.eqb c "/"); [reflexivity |].
  rewrite IH. reflexivity.
Qed.

(** The key of the dispatch is the first path segment. *)
Lemma split_first u : split u "/" !! 1%nat = first_segment u.
Proof.
  rewrite split_slash. unfold first_segment. simpl.
  destruct (after_slash u) as [rest |]; [| reflexivity].
  rewrite split_slash. reflexivity.
Qed.

Lemma split_second u : split u "/" !! 2%nat = second_segment u.
Proof.
  rewrite split_slash. unfold second_segment. simpl.
  destruct (after_slash u) as [rest |]; [| reflexivity].
  rewrite split_slash. simpl.
  destruct (after_slash rest) as [rest' |]; [| reflexivity].
  rewrite split_slash. reflexivity.
Qed.

Lemma before_slash_free s : slash_free s = true -> before_slash s = s.
Proof.
  induction s as [| c s IH]; simpl; [reflexivity |].
  destruct (Ascii.eqb c "/"); simpl; [discriminate |].
  intros H. rewrite IH by exact H. reflexivity.
Qed.

Lemma after_slash_free s : slash_free s = true -> after_slash s = None.
Proof.
  induction s as [| c s IH]; simpl; [reflexivity |].
  destruct (Ascii.eqb c "/"); simpl; [discriminate | exact IH].
Qed.

(** ** Reading a status code *)

Lemma digit_is_no_space c d : is_digit c = Some d -> is_white_space c = false.
Proof.
  unfold is_digit, is_white_space.
  set (n := Z.of_nat (nat_of_ascii c)).
  destruct (Z.leb_spec 48 n), (Z.leb_spec n 57); simpl; try discriminate.
  intros _.
  destruct (Z.leb_spec 9 n), (Z.leb_spec n 13), (Z.eqb_spec n 32),
    (Z.eqb_spec n 160); simpl; try reflexivity; lia.
Qed.

Lemma digit_is_no_sign c d :
  is_digit c = Some d -> Ascii.eqb c "-" = false /\ Ascii.eqb c "+" = false.
Proof.
  intros H. split.
  - destruct (Ascii.eqb_spec c "-") as [-> |]; [discriminate | reflexivity].
  - destruct (Ascii.eqb_spec c "+") as [-> |]; [discriminate | reflexivity].
Qed.

Lemma digits_value_parse s acc n :
  digits_value s acc = Some n -> parse_digits s (Some acc) = Some n.
Proof.
  revert acc. induction s as [| c s IH]; simpl; intros acc H.
  - exact H.
  - destruct (is_digit c) as [d |]; [| discriminate].
    apply IH. exact H.
Qed.

Lemma digits_value_parse_all s n :
  s <> EmptyString -> digits_value s 0 = Some n ->
  parse_digits s None = Some n.
Proof.
  destruct s as [| c s]; [congruence |]. intros _. simpl.
  destruct (is_digit c) as [d |]; [| discriminate].
  apply digits_value_parse.
Qed.

(** On a valid integer string parseInt reads the integer it denotes. *)
Lemma parseInt10_decimal s n :
  decimal_integer s = Some n -> parseInt10 (Some s) = Double.of_Z n.
Proof.
  unfold decimal_integer, parseInt10. simpl default.
  destruct s as [| c s]; [discriminate |].
  assert (Hsigned : forall sign,
    match s with
    | EmptyString => None
    | String _ _ => (fun m => sign * m) <$> digits_value s 0
    end = Some n ->
    match parse_digits s None with
    | Some mathInt => Double.of_Z (sign * mathInt)
    | None => NaN
    end = Double.of_Z n).
  { intros sign H. destruct s as [| c' s']; [discriminate |].
    destruct (digits_value (String c' s') 0) as [m |] eqn:E; [| discriminate].
    injection H as <-.
    rewrite (digits_value_parse_all _ m); [reflexivity | discriminate | exact E]. }
  unfold strip_sign at 1.
  destruct (Ascii.eqb_spec c "-") as [-> | Hminus].
  { change (trimStart (String "-" s)) with (String "-" s). simpl strip_sign.
    apply Hsigned. }
  destruct (Ascii.eqb_spec c "+") as [-> | Hplus].
  { change (trimStart (String "+" s)) with (String "+" s). simpl strip_sign.
    apply Hsigned. }
  intros H.
  destruct (digits_value (String c s) 0) as [m |] eqn:E; [| discriminate].
  injection H as <-.
  assert (Hd : exists d, is_digit c = Some d).
  { simpl in E. destruct (is_digit c) as [d |]; [eauto | discriminate]. }
  destruct Hd as [d Hd].
  simpl trimStart. rewrite (digit_is_no_space c d Hd).
  unfold strip_sign.
  destruct (digit_is_no_sign c d Hd) as [-> ->].
  rewrite (digits_value_parse_all _ m); [reflexivity | discriminate | exact E].
Qed.

(** Without a leading integer parseInt yields NaN. *)
Lemma parseInt10_NaN x :
  begins_with_integer x = false -> parseInt10 (Some x) = NaN.
Proof.
  unfold begins_with_integer, parseInt10. simpl default.
  destruct (strip_sign (trimStart x)) as [sign rest]. simpl.
  destruct rest as [| c rest]; [reflexivity |]. simpl.
  destruct (is_digit c) as [d |]; [| reflexivity].
  intros H. apply bool_decide_eq_false in H. exfalso. apply H. eauto.
Qed.

(** ** Writing the response *)

Lemma untouched_spawned c w : untouched w -> untouched (spawned c w).
Proof. intros H. exact H. Qed.

Lemma setResponse_run request code sc content hdrs w :
  untouched w -> Double.ToInt32 code = sc -> 100 <= sc <= 999 ->
  setResponse request code content hdrs w =
  (Return (),
   answered sc (responseHeaders request hdrs) (default EmptyString content) w).
Proof.
  intros Hw Hsc [Hlo Hhi].
  unfold setResponse, bind, writeHead, end_, update. rewrite Hw, Hsc. simpl.
  destruct (Z.ltb_spec sc 100); [lia |].
  destruct (Z.ltb_spec 999 sc); [lia |]. simpl.
  reflexivity.
Qed.

Lemma setResponse_refused request code content hdrs w :
  untouched w ->
  ¬ (100 <= Double.ToInt32 code <= 999) ->
  setResponse request code content hdrs w =
  (Throw (ERR_HTTP_INVALID_STATUS_CODE code), w).
Proof.
  intros Hw Hsc.
  unfold setResponse, bind, writeHead, throw. rewrite Hw. simpl.
  destruct (Z.ltb_spec (Double.ToInt32 code) 100); [reflexivity |].
  destruct (Z.ltb_spec 999 (Double.ToInt32 code)); [reflexivity |]. lia.
Qed.

(** The catch clause of the handler. *)
Lemma failure_run (text : string) w :
  untouched w ->
  (writeHead (Double.of_Z 500) ∅ ;; write text ;; end_ None) w =
  (Return (), answered 500 ∅ text w).
Proof.
  intros Hw. unfold bind, writeHead, write, end_, update. rewrite Hw.
  reflexivity.
Qed.

(** The body sent once a whole response was written. *)
Lemma messageBody_answered request sc hdrs text w :
  messageBody request (response (answered sc hdrs text w)) =
  if strict_eq (method request) "HEAD" || bodiless sc then EmptyString
  else text.
Proof.
  unfold messageBody, hasBody. simpl.
  destruct (strict_eq (method request) "HEAD"), (bodiless sc); reflexivity.
Qed.

Lemma messageBody_empty request res :
  body res = EmptyString -> messageBody request res = EmptyString.
Proof.
  intros H. unfold messageBody. rewrite H.
  destruct (hasBody request res); reflexivity.
Qed.

Lemma cli_routes_spec r :
  r ∈ cli_routes <->
  r = "token" \/ r = "logout" \/ r = "login" \/ r = "user".
Proof.
  unfold cli_routes. rewrite !elem_of_cons, elem_of_nil. tauto.
Qed.

Lemma known_routes_spec r :
  r ∈ known_routes <-> r ∈ cli_routes \/ r = "httpcode".
Proof.
  unfold known_routes. rewrite elem_of_app, list_elem_of_singleton. tauto.
Qed.

Lemma switch_default key :
  (forall r, key = Some r -> r ∉ known_routes) -> switch key = case_default.
Proof.
  intros H. unfold switch, strict_eq. destruct key as [k |]; [| reflexivity].
  specialize (H k eq_refl).
  assert (Hne : forall r, r ∈ known_routes -> String.eqb k r = false).
  { intros r Hr. destruct (String.eqb_spec k r) as [-> |]; [contradiction | reflexivity]. }
  rewrite !Hne; [reflexivity | ..];
    rewrite known_routes_spec, cli_routes_spec; tauto.
Qed.

Lemma switch_known r :
  r ∈ known_routes ->
  (r = "token" /\ switch (Some r) = case_token) \/
  (r = "logout" /\ switch (Some r) = case_logout) \/
  (r = "login" /\ switch (Some r) = case_login) \/
  (r = "user" /\ switch (Some r) = case_user) \/
  (r = "httpcode" /\ switch (Some r) = case_httpcode).
Proof.
  rewrite known_routes_spec, cli_routes_spec.
  intros [[-> | [-> | [-> | ->]]] | ->]; tauto.
Qed.

Lemma first_segment_empty : first_segment EmptyString = None.
Proof. reflexivity. Qed.

Lemma routed_dispatched request route :
  strict_eq (method request) "OPTIONS" = false -> routed request route ->
  exists u, dispatched request u /\ first_segment u = Some route.
Proof.
  intros Hm (u & Hu & Hseg). exists u. split; [| exact Hseg].
  split; [exact Hm |]. split; [exact Hu |]. intros ->. discriminate.
Qed.

(** * The relay, clause by clause *)
Section RelayFacts.

Variable host : Host.

Lemma execAz_returns cmd out w :
  execSync host ("az " +:+ cmd) = Return out ->
  execAz host cmd w = (Return (Some out), spawned ("az " +:+ cmd) w).
Proof.
  intros H. unfold execAz, try_catch, bind, run. rewrite H. reflexivity.
Qed.

Lemma execAz_swallows cmd err w :
  execSync host ("az " +:+ cmd) = Throw err -> status err = Some 1 ->
  execAz host cmd w = (Return None, spawned ("az " +:+ cmd) w).
Proof.
  intros H Hst. unfold execAz, try_catch, bind, run. rewrite H.
  rewrite bool_decide_eq_true_2 by exact Hst. reflexivity.
Qed.

Lemma execAz_rethrows cmd err w :
  execSync host ("az " +:+ cmd) = Throw err -> status err <> Some 1 ->
  execAz host cmd w = (Throw err, spawned ("az " +:+ cmd) w).
Proof.
  intros H Hst. unfold execAz, try_catch, bind, run. rewrite H.
  rewrite bool_decide_eq_false_2 by exact Hst. reflexivity.
Qed.

Lemma getCacheHeaders_undefined w :
  getCacheHeaders host None w = (Return ∅, w).
Proof. reflexivity. Qed.

Lemma getCacheHeaders_invalid out w :
  JSON_parse host out = None ->
  getCacheHeaders host (Some out) w = (Return ∅, w).
Proof.
  intros H. unfold getCacheHeaders, try_catch, bind, lift, parse. simpl.
  destruct (negb (out =? EmptyString)%string); [| reflexivity].
  rewrite H. reflexivity.
Qed.

Lemma getCacheHeaders_omitted out v w :
  JSON_parse host out = Some v -> ¬ has_field v "expiresOn" ->
  getCacheHeaders host (Some out) w = (Return ∅, w).
Proof.
  intros H Hv. unfold getCacheHeaders, try_catch, bind, lift, parse. simpl.
  destruct (negb (out =? EmptyString)%string); [| reflexivity].
  rewrite H.
  assert (E : ToBoolean (and_then v (Get v "expiresOn")) = false).
  { unfold and_then. destruct (ToBoolean v) eqn:Ev; [| exact Ev].
    destruct v as [| | b | n | s | l | o]; try reflexivity.
    simpl in *. destruct (o !! "expiresOn") as [x |]; [| reflexivity].
    exfalso. apply Hv. eauto. }
  rewrite E. reflexivity.
Qed.

Lemma getCacheHeaders_present out o v d w :
  out <> EmptyString ->
  JSON_parse host out = Some (JObject o) -> o !! "expiresOn" = Some v ->
  ToBoolean v = true -> new_Date host v = Return d ->
  getCacheHeaders host (Some out) w =
  (Return {[ "Cache-Control" := "private";
             "Expires" :=
               toUTCString
                 (TimeClip (Double.sub (getTime d)
                                       (Double.of_Z (5 * 60 * 1000)))) ]},
   w).
Proof.
  intros Hne H Ho Hv Hd.
  unfold getCacheHeaders, try_catch, bind, lift, parse. simpl truthy_string.
  destruct (String.eqb_spec out EmptyString) as [| _]; [congruence |].
  simpl. rewrite H. unfold and_then, Get. change (ToBoolean (JObject o)) with true.
  cbv iota. rewrite Ho. change (default JUndefined (Some v)) with v.
  rewrite Hv, Hd. reflexivity.
Qed.

Lemma getCacheHeaders_pure tokenJson w :
  getCacheHeaders host tokenJson w = (Return (cacheHeaders host tokenJson), w).
Proof.
  unfold cacheHeaders, getCacheHeaders, try_catch, bind, lift, ret.
  destruct (if truthy_string tokenJson
            then parse host (default EmptyString tokenJson)
            else Return JUndefined) as [auth | err]; [| reflexivity].
  destruct (ToBoolean (and_then auth (Get auth "expiresOn")));
    [| reflexivity].
  destruct (new_Date host (Get auth "expiresOn")); reflexivity.
Qed.

Lemma cli_clause_run request cmd
    (cache : option string -> Action (gmap string string))
    (hdrs : option string -> gmap string string) :
  (forall x w, cache x w = (Return (hdrs x), w)) ->
  try_catch
    (content <- execAz host cmd ;;
     headers <- cache content ;;
     setResponse request (Double.of_Z 200) content headers)
    (fun err =>
       writeHead (Double.of_Z 500) ∅ ;;
       write (JSON_stringify host err) ;;
       end_ None) idle
  = cli_response host request cmd hdrs.
Proof.
  intros Hcache. unfold cli_response, try_catch.
  unfold bind at 1.
  destruct (execSync host ("az " +:+ cmd)) as [out | err] eqn:E.
  - rewrite (execAz_returns _ _ _ E).
    unfold bind at 1. rewrite Hcache.
    rewrite (setResponse_run _ _ 200); [reflexivity | reflexivity | reflexivity | lia].
  - destruct (bool_decide (status err = Some 1)) eqn:Est.
    + apply bool_decide_eq_true in Est.
      rewrite (execAz_swallows _ _ _ E Est).
      unfold bind at 1. rewrite Hcache.
      rewrite (setResponse_run _ _ 200); [reflexivity | reflexivity | reflexivity | lia].
    + apply bool_decide_eq_false in Est.
      rewrite (execAz_rethrows _ _ _ E Est).
      rewrite failure_run; reflexivity.
Qed.

(** ** The handler, clause by clause *)

Lemma serve_preflight request :
  strict_eq (method request) "OPTIONS" = true ->
  serve host request =
  (Return (), answered 200 (responseHeaders request ∅) EmptyString idle).
Proof.
  intros Hm. unfold serve, handler, try_catch. rewrite Hm. reflexivity.
Qed.

Lemma serve_empty_url request :
  strict_eq (method request) "OPTIONS" = false ->
  truthy_string (url request) = false ->
  serve host request =
  (Return (), answered 404 (responseHeaders request ∅) "Empty url" idle).
Proof.
  intros Hm Hu. unfold serve, handler, try_catch. rewrite Hm, Hu. reflexivity.
Qed.

Lemma dispatched_truthy request u :
  dispatched request u -> truthy_string (url request) = true.
Proof.
  intros (_ & -> & Hne). simpl.
  destruct (String.eqb_spec u EmptyString); [contradiction | reflexivity].
Qed.

Ltac enter_switch Hd Hsw :=
  let Hm := fresh in let Hu := fresh in
  pose proof (dispatched_truthy _ _ Hd) as Hu;
  pose proof (proj1 Hd) as Hm;
  unfold serve, handler; rewrite Hm, Hu;
  rewrite (proj1 (proj2 Hd)); simpl negb; cbv iota;
  simpl default; cbv zeta; rewrite ?split_first, ?split_second, Hsw.

Lemma serve_token request u :
  dispatched request u -> switch (first_segment u) = case_token ->
  serve host request =
  cli_response host request "account get-access-token -o json"
    (cacheHeaders host).
Proof.
  intros Hd Hsw. enter_switch Hd Hsw.
  apply cli_clause_run, getCacheHeaders_pure.
Qed.

Lemma serve_plain request u clause cmd :
  dispatched request u -> switch (first_segment u) = clause ->
  (clause = case_logout /\ cmd = "logout") \/
  (clause = case_login /\ cmd = "login") \/
  (clause = case_user /\ cmd = "account show -o json") ->
  serve host request = cli_response host request cmd (fun _ => ∅).
Proof.
  intros Hd Hsw Hc.
  destruct Hc as [[-> ->] | [[-> ->] | [-> ->]]]; enter_switch Hd Hsw;
    exact (cli_clause_run request _ (fun _ => ret ∅) (fun _ => ∅)
             (fun _ _ => eq_refl)).
Qed.

Lemma serve_default request u :
  dispatched request u -> switch (first_segment u) = case_default ->
  serve host request =
  (Return (),
   answered 404 (responseHeaders request ∅) ("Unsupported url " +:+ u) idle).
Proof.
  intros Hd Hsw. enter_switch Hd Hsw. reflexivity.
Qed.

Lemma serve_httpcode request u sc :
  dispatched request u -> switch (first_segment u) = case_httpcode ->
  Double.ToInt32 (Double.or_else (parseInt10 (second_segment u))
                                 (Double.of_Z 404)) = sc ->
  100 <= sc <= 999 ->
  serve host request =
  (Return (),
   answered sc (responseHeaders request ∅)
     (default EmptyString (second_segment u)) idle).
Proof.
  intros Hd Hsw Hsc Hr. enter_switch Hd Hsw. unfold try_catch.
  rewrite (setResponse_run _ _ sc); [reflexivity | reflexivity | exact Hsc | exact Hr].
Qed.

Lemma serve_httpcode_refused request u :
  dispatched request u -> switch (first_segment u) = case_httpcode ->
  let code := Double.or_else (parseInt10 (second_segment u))
                             (Double.of_Z 404) in
  ¬ (100 <= Double.ToInt32 code <= 999) ->
  serve host request =
  (Return (),
   answered 500 ∅
     (JSON_stringify host (ERR_HTTP_INVALID_STATUS_CODE code)) idle).
Proof.
  intros Hd Hsw code Hr. enter_switch Hd Hsw. unfold try_catch.
  rewrite setResponse_refused; [| reflexivity | exact Hr].
  apply failure_run. reflexivity.
Qed.

End RelayFacts.

(** * The properties of the specification *)
Section Claims.

Variable host : Host.

Lemma cli_response_invoked request cmd cache :
  childProcesses (cli_response host request cmd cache).2 = ["az " +:+ cmd].
Proof.
  unfold cli_response. destruct (execSync host ("az " +:+ cmd)) as [out | err];
    [reflexivity |].
  destruct (bool_decide (status err = Some 1)); reflexivity.
Qed.

(** Every request is answered, in one of three ways: through setResponse
    without running the CLI, through the catch clause after Node refused
    the status, or as the clause of a route that runs the CLI once. *)
Lemma serve_cases request :
  (exists sc text,
      serve host request =
      (Return (), answered sc (responseHeaders request ∅) text idle)) \/
  (exists code,
      serve host request =
      (Return (),
       answered 500 ∅
         (JSON_stringify host (ERR_HTTP_INVALID_STATUS_CODE code)) idle)) \/
  (exists cmd cache,
      serve host request = cli_response host request cmd cache /\
      (cache = cacheHeaders host \/ cache = fun _ => ∅)).
Proof.
  destruct (strict_eq (method request) "OPTIONS") eqn:Hm.
  { left. eexists _, _. apply serve_preflight. exact Hm. }
  destruct (truthy_string (url request)) eqn:Hu.
  2:{ left. eexists _, _. apply serve_empty_url; assumption. }
  destruct (url request) as [u |] eqn:Eu; [| discriminate].
  assert (Hd : dispatched request u).
  { split; [exact Hm |]. split; [exact Eu |]. intros ->. discriminate. }
  destruct (switch (first_segment u)) eqn:Hsw.
  - right. right. eexists _, _. split; [eapply serve_token; eassumption | tauto].
  - right. right. eexists _, _. split; [eapply serve_plain; eauto | tauto].
  - right. right. eexists _, _. split; [eapply serve_plain; eauto 6 | tauto].
  - right. right. eexists _, _. split; [eapply serve_plain; eauto 6 | tauto].
  - destruct (decide (100 <= Double.ToInt32
       (Double.or_else (parseInt10 (second_segment u)) (Double.of_Z 404))
       <= 999)) as [Hr | Hr].
    + left. eexists _, _. eapply serve_httpcode; eauto.
    + right. left. eexists. eapply serve_httpcode_refused; eauto.
  - left. eexists _, _. eapply serve_default; eauto.
Qed.

(** For the hosts of the model, whose CLI call ends and whose errors can be
    serialized, the handler returns and ends the response. *)
Lemma every_request_is_answered request :
  (serve host request).1 = Return () /\
  finished (served host request) = true.
Proof.
  unfold served.
  destruct (serve_cases request)
    as [(sc & text & ->) | [(code & ->) | (cmd & cache & -> & _)]];
    [auto | auto |].
  unfold cli_response.
  destruct (execSync host ("az " +:+ cmd)) as [out | err]; [auto |].
  destruct (bool_decide (status err = Some 1)); auto.
Qed.

(** C1. For each of the routes token, logout, login and user: when the
    identity CLI run for the request exits with status 1, the handler does
    not throw and the relay answers: the head is written with status 200
    and the response is ended, with an empty body (no text is handed to the
    response, and none is sent). *)
Theorem exit_status_1_is_an_empty_200 request route :
  route ∈ cli_routes -> routed request route ->
  (forall c, c ∈ invoked host request ->
     exists err, execSync host c = Throw err /\ status err = Some 1) ->
  (serve host request).1 = Return () /\
  headersSent (served host request) = true /\
  finished (served host request) = true /\
  statusCode (served host request) = 200 /\
  body (served host request) = EmptyString /\
  messageBody request (served host request) = EmptyString.
Proof.
  intros Hroute Hrouted Hcli. unfold served, invoked in *.
  destruct (strict_eq (method request) "OPTIONS") eqn:Hm.
  { rewrite serve_preflight by exact Hm.
    repeat split. apply messageBody_empty. reflexivity. }
  destruct (routed_dispatched _ _ Hm Hrouted) as (u & Hd & Hseg).
  assert (Hserve : exists cmd cache,
            serve host request = cli_response host request cmd cache).
  { assert (Hk : route ∈ known_routes).
    { apply known_routes_spec. left. exact Hroute. }
    destruct (switch_known route Hk)
      as [[-> Hs] | [[-> Hs] | [[-> Hs] | [[-> Hs] | [-> Hs]]]]];
      rewrite <- Hseg in Hs.
    - eexists _, _. eapply serve_token; eassumption.
    - eexists _, _. eapply serve_plain; eauto.
    - eexists _, _. eapply serve_plain; eauto 6.
    - eexists _, _. eapply serve_plain; eauto 6.
    - apply cli_routes_spec in Hroute.
      destruct Hroute as [? | [? | [? | ?]]]; discriminate. }
  destruct Hserve as (cmd & cache & Hserve). rewrite Hserve in *.
  destruct (Hcli ("az " +:+ cmd)) as (err & Hex & Hst).
  { rewrite cli_response_invoked. apply list_elem_of_here. }
  unfold cli_response. rewrite Hex.
  rewrite bool_decide_eq_true_2 by exact Hst.
  repeat split. apply messageBody_empty. reflexivity.
Qed.


(** C8, as amended. A request other than OPTIONS whose URL is missing, or
    whose first path segment is none of token, logout, login, user and
    httpcode, is answered 404 with a plain-text body naming what is not
    supported, through setResponse (the response has the text/plain content
    type and no CLI is run), and not through the catch clause. *)
Theorem unknown_route_is_a_404 request :
  strict_eq (method request) "OPTIONS" = false ->
  (truthy_string (url request) = false ->
   serve host request =
   (Return (), answered 404 (responseHeaders request ∅) "Empty url" idle)) /\
  (forall u, url request = Some u -> u <> EmptyString ->
     (forall r, first_segment u = Some r -> r ∉ known_routes) ->
     serve host request =
     (Return (),
      answered 404 (responseHeaders request ∅) ("Unsupported url " +:+ u)
        idle)) /\
  responseHeaders request ∅ !! "Content-Type" = Some "text/plain".
Proof.
  intros Hm. split; [| split].
  - intros Hu. apply serve_empty_url; assumption.
  - intros u Hu Hne Hseg. apply serve_default.
    + split; [exact Hm |]. split; assumption.
    + apply switch_default. exact Hseg.
  - reflexivity.
Qed.

Lemma first_segment_with_extra r extra :
  r ∈ known_routes ->
  switch (first_segment ("/" +:+ r +:+ "/" +:+ extra)) = switch (Some r).
Proof.
  intros Hr.
  destruct (switch_known r Hr)
    as [[-> _] | [[-> _] | [[-> _] | [[-> _] | [-> _]]]]]; reflexivity.
Qed.

Lemma first_segment_with_query r query :
  r ∈ known_routes ->
  switch (first_segment ("/" +:+ r +:+ "?" +:+ query)) = case_default.
Proof.
  intros Hr.
  destruct (switch_known r Hr)
    as [[-> _] | [[-> _] | [[-> _] | [[-> _] | [-> _]]]]]; reflexivity.
Qed.

Lemma dispatched_to request u :
  strict_eq (method request) "OPTIONS" = false -> u <> EmptyString ->
  dispatched (to request u) u.
Proof. intros Hm Hne. split; [exact Hm |]. split; [reflexivity | exact Hne]. Qed.

(** C10. The switch is on the raw text between the first slash of the URL
    and the second: further path segments after a known route leave the
    clause taken unchanged (and the whole answer, for the routes that run
    the CLI), while a query string glued to the route selects the default
    clause, whose answer is the 404 for an unsupported URL. *)
Theorem dispatch_is_on_the_raw_first_segment request :
  (forall u, split u "/" !! 1%nat = first_segment u) /\
  (forall r extra, r ∈ known_routes ->
     switch (split ("/" +:+ r +:+ "/" +:+ extra) "/" !! 1%nat)
     = switch (Some r) /\ switch (Some r) <> case_default) /\
  (forall r query, r ∈ known_routes ->
     switch (split ("/" +:+ r +:+ "?" +:+ query) "/" !! 1%nat)
     = case_default) /\
  (forall r extra, r ∈ cli_routes ->
     serve host (to request ("/" +:+ r +:+ "/" +:+ extra))
     = serve host (to request ("/" +:+ r))) /\
  (forall r query, r ∈ known_routes ->
     strict_eq (method request) "OPTIONS" = false ->
     serve host (to request ("/" +:+ r +:+ "?" +:+ query))
     = (Return (),
        answered 404 (responseHeaders request ∅)
          ("Unsupported url /" +:+ r +:+ "?" +:+ query) idle)).
Proof.
  split; [exact split_first |]. split; [| split; [| split]].
  - intros r extra Hr. rewrite split_first. split.
    + apply first_segment_with_extra. exact Hr.
    + destruct (switch_known r Hr)
        as [[_ ->] | [[_ ->] | [[_ ->] | [[_ ->] | [_ ->]]]]]; discriminate.
  - intros r query Hr. rewrite split_first.
    apply first_segment_with_query. exact Hr.
  - intros r extra Hr.
    destruct (strict_eq (method request) "OPTIONS") eqn:Hm.
    { rewrite !serve_preflight by exact Hm. reflexivity. }
    assert (Hk : r ∈ known_routes) by (apply known_routes_spec; tauto).
    pose proof (first_segment_with_extra r extra Hk) as Hsw.
    assert (Hd : dispatched (to request ("/" +:+ r +:+ "/" +:+ extra))
                   ("/" +:+ r +:+ "/" +:+ extra))
      by (apply dispatched_to; [exact Hm | discriminate]).
    assert (Hd' : dispatched (to request ("/" +:+ r)) ("/" +:+ r))
      by (apply dispatched_to; [exact Hm | discriminate]).
    apply cli_routes_spec in Hr.
    destruct Hr as [-> | [-> | [-> | ->]]].
    + rewrite (serve_token _ _ _ Hd Hsw), (serve_token _ _ _ Hd' eq_refl).
      reflexivity.
    + rewrite (serve_plain _ _ _ _ "logout" Hd Hsw),
        (serve_plain _ _ _ _ "logout" Hd' eq_refl); [reflexivity | tauto ..].
    + rewrite (serve_plain _ _ _ _ "login" Hd Hsw),
        (serve_plain _ _ _ _ "login" Hd' eq_refl); [reflexivity | tauto ..].
    + rewrite (serve_plain _ _ _ _ "account show -o json" Hd Hsw),
        (serve_plain _ _ _ _ "account show -o json" Hd' eq_refl);
        [reflexivity | tauto ..].
  - intros r query Hr Hm.
    rewrite (serve_default _ _ ("/" +:+ r +:+ "?" +:+ query)).
    + reflexivity.
    + apply dispatched_to; [exact Hm | discriminate].
    + apply first_segment_with_query. exact Hr.
Qed.

Lemma digits_slash_free s acc n :
  digits_value s acc = Some n -> slash_free s = true.
Proof.
  revert acc. induction s as [| c s IH]; simpl; intros acc H; [reflexivity |].
  destruct (is_digit c) as [d |] eqn:Hd; [| discriminate].
  rewrite (IH _ H), andb_true_r.
  destruct (Ascii.eqb_spec c "/") as [-> |]; [discriminate | reflexivity].
Qed.

Lemma decimal_slash_free s n : decimal_integer s = Some n -> slash_free s = true.
Proof.
  unfold decimal_integer, strip_sign.
  destruct s as [| c s]; [discriminate |].
  assert (Hrest : forall sign,
    match s with
    | EmptyString => None
    | String _ _ => (fun m => sign * m) <$> digits_value s 0
    end = Some n -> slash_free s = true).
  { intros sign H. destruct s as [| c' s']; [discriminate |].
    destruct (digits_value (String c' s') 0) as [m |] eqn:E; [| discriminate].
    exact (digits_slash_free _ _ _ E). }
  destruct (Ascii.eqb_spec c "-") as [-> |].
  { intros H. simpl. eapply Hrest, H. }
  destruct (Ascii.eqb_spec c "+") as [-> |].
  { intros H. simpl. eapply Hrest, H. }
  intros H.
  destruct (digits_value (String c s) 0) as [m |] eqn:E; [| discriminate].
  exact (digits_slash_free _ _ _ E).
Qed.

Lemma dispatched_httpcode request rest :
  strict_eq (method request) "OPTIONS" = false ->
  url request = Some ("/httpcode" +:+ rest) ->
  dispatched request ("/httpcode" +:+ rest).
Proof.
  intros Hm Hu. split; [exact Hm |]. split; [exact Hu | discriminate].
Qed.

(** C3, as amended. A request other than OPTIONS and HEAD for /httpcode/n,
    n a valid integer string whose value is between 200 and 999 and is
    neither 204 nor 304, is answered: the response has the status n and the
    text n as its body (the text is handed to the response, and Node sends
    it). *)
Theorem httpcode_echoes_a_valid_status request s n :
  strict_eq (method request) "OPTIONS" = false ->
  strict_eq (method request) "HEAD" = false ->
  url request = Some ("/httpcode/" +:+ s) ->
  decimal_integer s = Some n ->
  200 <= n <= 999 -> n <> 204 -> n <> 304 ->
  (serve host request).1 = Return () /\
  headersSent (served host request) = true /\
  finished (served host request) = true /\
  statusCode (served host request) = n /\
  body (served host request) = s /\
  messageBody request (served host request) = s.
Proof.
  intros Hm Hhead Hu Hs Hn H204 H304. unfold served.
  pose proof (dispatched_httpcode request ("/" +:+ s) Hm Hu) as Hd.
  assert (Hsecond : second_segment ("/httpcode" +:+ "/" +:+ s) = Some s).
  { change (second_segment ("/httpcode" +:+ "/" +:+ s))
      with (Some (before_slash s)).
    rewrite before_slash_free; [reflexivity |].
    exact (decimal_slash_free _ _ Hs). }
  rewrite (serve_httpcode host request _ n Hd eq_refl).
  - rewrite Hsecond. repeat split.
    change (messageBody request
              (response (answered n (responseHeaders request ∅) s idle)) = s).
    rewrite messageBody_answered, Hhead. unfold bodiless.
    destruct (Z.eqb_spec n 204); [contradiction |].
    destruct (Z.eqb_spec n 304); [contradiction |].
    destruct (Z.leb_spec n 199); [lia |].
    rewrite andb_false_r. reflexivity.
  - rewrite Hsecond, (parseInt10_decimal _ _ Hs).
    rewrite of_Z_exact by lia.
    unfold Double.or_else, Double.truthy.
    destruct (Z.eqb_spec n 0); [lia |]. simpl negb. cbv iota.
    apply ToInt32_exact. lia.
  - lia.
Qed.

(** C7, as amended. A request other than OPTIONS for /httpcode without
    argument, or for /httpcode/x where x does not begin with an integer
    (optional white space, an optional sign, a digit), is answered 404 and
    the body is x (empty when there is no argument). *)
Theorem httpcode_without_integer_is_a_404 request :
  strict_eq (method request) "OPTIONS" = false ->
  (url request = Some "/httpcode" ->
   (serve host request).1 = Return () /\
   statusCode (served host request) = 404 /\
   body (served host request) = EmptyString) /\
  (forall x, url request = Some ("/httpcode/" +:+ x) ->
     slash_free x = true -> begins_with_integer x = false ->
     (serve host request).1 = Return () /\
     statusCode (served host request) = 404 /\
     body (served host request) = x).
Proof.
  intros Hm. unfold served. split.
  - intros Hu.
    pose proof (dispatched_httpcode request EmptyString Hm Hu) as Hd.
    rewrite (serve_httpcode host request _ 404 Hd eq_refl eq_refl); [auto | lia].
  - intros x Hu Hfree Hx.
    pose proof (dispatched_httpcode request ("/" +:+ x) Hm Hu) as Hd.
    assert (Hsecond : second_segment ("/httpcode" +:+ "/" +:+ x) = Some x).
    { change (second_segment ("/httpcode" +:+ "/" +:+ x))
        with (Some (before_slash x)).
      rewrite before_slash_free; [reflexivity | exact Hfree]. }
    rewrite (serve_httpcode host request _ 404 Hd eq_refl).
    + rewrite Hsecond. auto.
    + rewrite Hsecond, (parseInt10_NaN _ Hx). reflexivity.
    + lia.
Qed.

(** The spread of the cache headers leaves the three fixed names alone
    and adds its own two. *)
Lemma responseHeaders_cache request (hdrs : gmap string string) k :
  k = "Cache-Control" \/ k = "Expires" ->
  responseHeaders request hdrs !! k = hdrs !! k.
Proof.
  intros Hk. unfold responseHeaders. rewrite lookup_union.
  assert (E : ({[ "Content-Type" := "text/plain";
                  "Access-Control-Allow-Origin" :=
                    header_or request "origin" "self";
                  "Access-Control-Allow-Headers" :=
                    header_or request "access-control-request-headers" "*" ]}
               : gmap string string) !! k = None).
  { destruct Hk as [-> | ->]; reflexivity. }
  rewrite E. destruct (hdrs !! k); reflexivity.
Qed.

Lemma new_Date_range v t :
  new_Date host v = Return (Some t) -> Z.abs t <= maxTime.
Proof.
  assert (Hclip : forall n, Return (TimeClip n) = Return (Some t) ->
                            Z.abs t <= maxTime).
  { intros n H. apply (TimeClip_range n). congruence. }
  unfold new_Date.
  destruct v as [| | b | n | s | l | o]; try apply Hclip; try discriminate.
  - destruct (ToString host (JArray l)); [apply Hclip | discriminate].
  - destruct (ToString host (JObject o)); [apply Hclip | discriminate].
Qed.

(** The token clause, once the CLI has printed [out]. *)
Lemma serve_token_output request c out :
  routed request "token" -> c ∈ invoked host request ->
  execSync host c = Return out ->
  serve host request =
  (Return (),
   answered 200 (responseHeaders request (cacheHeaders host (Some out))) out
     (spawned "az account get-access-token -o json" idle)).
Proof.
  intros Hrouted Hc Hex. unfold invoked in Hc.
  destruct (strict_eq (method request) "OPTIONS") eqn:Hm.
  { rewrite serve_preflight in Hc by exact Hm.
    apply elem_of_nil in Hc. contradiction. }
  destruct (routed_dispatched _ _ Hm Hrouted) as (u & Hd & Hseg).
  assert (Hsw : switch (first_segment u) = case_token) by (rewrite Hseg; reflexivity).
  rewrite (serve_token host request u Hd Hsw) in *.
  rewrite cli_response_invoked in Hc.
  apply list_elem_of_singleton in Hc. subst c.
  unfold cli_response. rewrite Hex. reflexivity.
Qed.

(** C6. When the output of the CLI is not valid JSON, or is JSON without
    an expiresOn field, getCacheHeaders returns the empty map without
    throwing, and the /token response is a 200 without Cache-Control and
    Expires headers whose body is that output. *)
Theorem malformed_token_gets_no_cache_headers request c out :
  JSON_parse host out = None \/
  (exists v, JSON_parse host out = Some v /\ ¬ has_field v "expiresOn") ->
  (forall w, getCacheHeaders host (Some out) w = (Return ∅, w)) /\
  (routed request "token" -> c ∈ invoked host request ->
   execSync host c = Return out ->
   (serve host request).1 = Return () /\
   statusCode (served host request) = 200 /\
   headers (served host request) !! "Cache-Control" = None /\
   headers (served host request) !! "Expires" = None /\
   body (served host request) = out).
Proof.
  intros Hout.
  assert (Hempty : forall w, getCacheHeaders host (Some out) w = (Return ∅, w)).
  { intros w. destruct Hout as [Hbad | (v & Hv & Hno)].
    - apply getCacheHeaders_invalid. exact Hbad.
    - eapply getCacheHeaders_omitted; eassumption. }
  split; [exact Hempty |].
  intros Hrouted Hc Hex. unfold served.
  rewrite (serve_token_output request c out Hrouted Hc Hex). simpl.
  assert (E : cacheHeaders host (Some out) = ∅).
  { pose proof (getCacheHeaders_pure host (Some out) idle) as Hp.
    rewrite Hempty in Hp. congruence. }
  rewrite E, !responseHeaders_cache by tauto. auto.
Qed.

(** C9. When the output of the CLI is a JSON object whose expiresOn is a
    non-empty string that Date.parse does not understand, the /token
    response still carries Cache-Control: private, and its Expires header is
    the text of the invalid date. *)
Theorem unparseable_expiry_is_an_invalid_date request c out o s :
  JSON_parse host EmptyString = None ->
  routed request "token" -> c ∈ invoked host request ->
  execSync host c = Return out ->
  JSON_parse host out = Some (JObject o) ->
  o !! "expiresOn" = Some (JString s) -> s <> EmptyString ->
  Date_parse host s = NaN ->
  statusCode (served host request) = 200 /\
  headers (served host request) !! "Cache-Control" = Some "private" /\
  headers (served host request) !! "Expires" = Some "Invalid Date" /\
  body (served host request) = out.
Proof.
  intros Hjson Hrouted Hc Hex Hout Ho Hs Hdate. unfold served.
  rewrite (serve_token_output request c out Hrouted Hc Hex). simpl.
  assert (Hne : out <> EmptyString) by (intros ->; congruence).
  assert (Htruthy : ToBoolean (JString s) = true).
  { simpl. destruct (String.eqb_spec s EmptyString); [contradiction | reflexivity]. }
  assert (Hnew : new_Date host (JString s) = Return None)
    by (simpl; rewrite Hdate; reflexivity).
  pose proof (getCacheHeaders_present host out o _ _ idle Hne Hout Ho Htruthy Hnew)
    as Hp.
  rewrite getCacheHeaders_pure in Hp. injection Hp as ->.
  rewrite !responseHeaders_cache by tauto. auto.
Qed.

(** C2, as amended. When the output of the CLI is a JSON object whose
    expiresOn is truthy (for a string: not empty) and denotes a valid date T
    such that T minus 300 seconds is not before the earliest date, the
    /token response is a 200 that carries Cache-Control: private and an
    Expires header equal to T minus 300 seconds in the HTTP date format.
    (The first hypothesis is a fact of JSON.parse: the empty text is not
    JSON.) *)
Theorem token_expiry_sets_the_cache_headers request c out o v t :
  JSON_parse host EmptyString = None ->
  routed request "token" -> c ∈ invoked host request ->
  execSync host c = Return out ->
  JSON_parse host out = Some (JObject o) ->
  o !! "expiresOn" = Some v -> ToBoolean v = true ->
  new_Date host v = Return (Some t) -> - maxTime <= t - 300000 ->
  statusCode (served host request) = 200 /\
  headers (served host request) !! "Cache-Control" = Some "private" /\
  headers (served host request) !! "Expires" = Some (formatUTC (t - 300000)) /\
  body (served host request) = out.
Proof.
  intros Hjson Hrouted Hc Hex Hout Ho Hv Hnew Ht. unfold served.
  rewrite (serve_token_output request c out Hrouted Hc Hex). simpl.
  assert (Hne : out <> EmptyString) by (intros ->; congruence).
  pose proof (getCacheHeaders_present host out o _ _ idle Hne Hout Ho Hv Hnew)
    as Hp.
  rewrite getCacheHeaders_pure in Hp. injection Hp as ->.
  change (Double.of_Z t) with (getTime (Some t)).
  rewrite five_minutes_before; [| exact (new_Date_range _ _ Hnew) | exact Ht].
  rewrite !responseHeaders_cache by tauto. auto.
Qed.

Lemma cacheHeaders_cases tokenJson :
  cacheHeaders host tokenJson = ∅ \/
  exists expires,
    cacheHeaders host tokenJson =
    {[ "Cache-Control" := "private"; "Expires" := expires ]}.
Proof.
  unfold cacheHeaders, getCacheHeaders, try_catch, bind, lift, ret.
  destruct (if truthy_string tokenJson
            then parse host (default EmptyString tokenJson)
            else Return JUndefined) as [auth | err]; [| left; reflexivity].
  destruct (ToBoolean (and_then auth (Get auth "expiresOn")));
    [| left; reflexivity].
  destruct (new_Date host (Get auth "expiresOn")); [| left; reflexivity].
  right. eexists. reflexivity.
Qed.

Lemma responseHeaders_reflect request tokenJson :
  reflects_the_request request (responseHeaders request ∅) /\
  reflects_the_request request
    (responseHeaders request (cacheHeaders host tokenJson)).
Proof.
  split; [repeat split |].
  destruct (cacheHeaders_cases tokenJson) as [-> | [expires ->]];
    repeat split.
Qed.

(** The headers of every response: those of setResponse, except on the
    catch clause, which sets none. *)
Lemma headers_of_every_response request :
  reflects_the_request request (headers (served host request)) \/
  (statusCode (served host request) = 500 /\
   headers (served host request) = ∅).
Proof.
  unfold served.
  destruct (serve_cases request)
    as [(sc & text & ->) | [(code & ->) | (cmd & cache & -> & Hcache)]].
  - left. apply (responseHeaders_reflect request None).
  - right. auto.
  - unfold cli_response.
    assert (Hrefl : forall x,
              reflects_the_request request (responseHeaders request (cache x))).
    { intros x. destruct Hcache as [-> | ->].
      - apply responseHeaders_reflect.
      - apply (responseHeaders_reflect request None). }
    destruct (execSync host ("az " +:+ cmd)) as [out | err];
      [left; apply Hrefl |].
    destruct (bool_decide (status err = Some 1)); [left; apply Hrefl |].
    right. auto.
Qed.

End Claims.

Lemma exit_status_1_witness :
  (serve (Sample.host (Sample.exits 1)) (Sample.get "/token")).1 = Return () /\
  headersSent (served (Sample.host (Sample.exits 1)) (Sample.get "/token"))
    = true /\
  finished (served (Sample.host (Sample.exits 1)) (Sample.get "/token"))
    = true /\
  statusCode (served (Sample.host (Sample.exits 1)) (Sample.get "/token"))
    = 200 /\
  body (served (Sample.host (Sample.exits 1)) (Sample.get "/token"))
    = EmptyString /\
  messageBody (Sample.get "/token")
    (served (Sample.host (Sample.exits 1)) (Sample.get "/token"))
    = EmptyString.
Proof.
  apply (exit_status_1_is_an_empty_200 _ _ "token").
  - apply list_elem_of_here.
  - exists "/token". split; reflexivity.
  - intros c _. eexists. split; reflexivity.
Defined.


Lemma unknown_route_witness :
  served (Sample.host (Sample.exits 2)) (Sample.get "/foo") =
  {| headersSent := true; statusCode := 404;
     headers := {[ "Content-Type" := "text/plain";
                   "Access-Control-Allow-Origin" := "http://localhost:3000";
                   "Access-Control-Allow-Headers" := "*" ]};
     body := "Unsupported url /foo"; finished := true |}.
Proof.
  unfold served.
  rewrite (proj1 (proj2 (unknown_route_is_a_404
             (Sample.host (Sample.exits 2)) (Sample.get "/foo") eq_refl))
             "/foo" eq_refl).
  - reflexivity.
  - discriminate.
  - intros r [= <-]. rewrite known_routes_spec, cli_routes_spec.
    intros [[? | [? | [? | ?]]] | ?]; discriminate.
Defined.

(** C8 as stated fails: an OPTIONS request without URL is a request with a
    missing URL, and it is answered 200 with an empty body. *)
Lemma missing_url_preflight_is_a_200 :
  url (Sample.options None) = None /\
  statusCode (served (Sample.host (Sample.exits 2)) (Sample.options None))
    = 200 /\
  body (served (Sample.host (Sample.exits 2)) (Sample.options None))
    = EmptyString.
Proof. repeat split. Qed.

Lemma dispatch_witness :
  switch (split "/token/extra" "/" !! 1%nat) = case_token /\
  switch (split "/token?x=1" "/" !! 1%nat) = case_default /\
  serve (Sample.host (Sample.prints "ok")) (Sample.get "/token/extra")
  = serve (Sample.host (Sample.prints "ok")) (Sample.get "/token") /\
  statusCode (served (Sample.host (Sample.prints "ok"))
                (Sample.get "/token?x=1")) = 404.
Proof.
  pose proof (dispatch_is_on_the_raw_first_segment
                (Sample.host (Sample.prints "ok")) (Sample.get "/"))
    as (_ & Hextra & Hquery & Hsame & Hdefault).
  assert (Htoken : "token" ∈ known_routes) by apply list_elem_of_here.
  split; [exact (proj1 (Hextra "token" "extra" Htoken)) |].
  split; [exact (Hquery "token" "x=1" Htoken) |].
  split; [exact (Hsame "token" "extra" (list_elem_of_here _ _)) |].
  unfold served.
  change (Sample.get "/token?x=1")
    with (to (Sample.get "/") ("/" +:+ "token" +:+ "?" +:+ "x=1")).
  rewrite (Hdefault "token" "x=1" Htoken eq_refl). reflexivity.
Defined.

Lemma httpcode_echo_witness :
  (serve (Sample.host (Sample.exits 2)) (Sample.get "/httpcode/418")).1
    = Return () /\
  headersSent (served (Sample.host (Sample.exits 2))
                 (Sample.get "/httpcode/418")) = true /\
  finished (served (Sample.host (Sample.exits 2))
              (Sample.get "/httpcode/418")) = true /\
  statusCode (served (Sample.host (Sample.exits 2))
                (Sample.get "/httpcode/418")) = 418 /\
  body (served (Sample.host (Sample.exits 2)) (Sample.get "/httpcode/418"))
    = "418" /\
  messageBody (Sample.get "/httpcode/418")
    (served (Sample.host (Sample.exits 2)) (Sample.get "/httpcode/418"))
    = "418".
Proof.
  apply (httpcode_echoes_a_valid_status _ (Sample.get "/httpcode/418") "418");
    [reflexivity | reflexivity | reflexivity | reflexivity | lia
    | discriminate | discriminate].
Defined.

(** C3 as stated fails: 0, 5 and 1000 are valid integer strings, yet
    /httpcode/0 is answered 404 and /httpcode/5 and /httpcode/1000, statuses
    Node refuses, 500 with the serialized error as body; an OPTIONS request
    for /httpcode/201 is answered 200 with an empty body; and the responses
    to /httpcode/204, /httpcode/304 and /httpcode/100, as the response to a
    HEAD request for /httpcode/201, have the status asked for but no body. *)
Lemma httpcode_zero_is_a_404 :
  (decimal_integer "0" = Some 0 /\
   statusCode (served (Sample.host (Sample.exits 2))
                 (Sample.get "/httpcode/0")) = 404) /\
  (decimal_integer "5" = Some 5 /\
   statusCode (served (Sample.host (Sample.exits 2))
                 (Sample.get "/httpcode/5")) = 500 /\
   body (served (Sample.host (Sample.exits 2)) (Sample.get "/httpcode/5"))
     <> "5") /\
  (decimal_integer "1000" = Some 1000 /\
   statusCode (served (Sample.host (Sample.exits 2))
                 (Sample.get "/httpcode/1000")) = 500) /\
  (decimal_integer "201" = Some 201 /\
   statusCode (served (Sample.host (Sample.exits 2))
                 (Sample.options (Some "/httpcode/201"))) = 200 /\
   body (served (Sample.host (Sample.exits 2))
           (Sample.options (Some "/httpcode/201"))) = EmptyString) /\
  (decimal_integer "204" = Some 204 /\
   statusCode (served (Sample.host (Sample.exits 2))
                 (Sample.get "/httpcode/204")) = 204 /\
   messageBody (Sample.get "/httpcode/204")
     (served (Sample.host (Sample.exits 2)) (Sample.get "/httpcode/204"))
     = EmptyString) /\
  (decimal_integer "304" = Some 304 /\
   statusCode (served (Sample.host (Sample.exits 2))
                 (Sample.get "/httpcode/304")) = 304 /\
   messageBody (Sample.get "/httpcode/304")
     (served (Sample.host (Sample.exits 2)) (Sample.get "/httpcode/304"))
     = EmptyString) /\
  (decimal_integer "100" = Some 100 /\
   statusCode (served (Sample.host (Sample.exits 2))
                 (Sample.get "/httpcode/100")) = 100 /\
   messageBody (Sample.get "/httpcode/100")
     (served (Sample.host (Sample.exits 2)) (Sample.get "/httpcode/100"))
     = EmptyString) /\
  (statusCode (served (Sample.host (Sample.exits 2))
                 (with_method (Sample.get "/httpcode/201") (Some "HEAD")))
     = 201 /\
   messageBody (with_method (Sample.get "/httpcode/201") (Some "HEAD"))
     (served (Sample.host (Sample.exits 2))
        (with_method (Sample.get "/httpcode/201") (Some "HEAD")))
     = EmptyString).
Proof. repeat split; discriminate. Qed.

Lemma httpcode_404_witness :
  statusCode (served (Sample.host (Sample.exits 2)) (Sample.get "/httpcode"))
    = 404 /\
  body (served (Sample.host (Sample.exits 2)) (Sample.get "/httpcode"))
    = EmptyString /\
  statusCode (served (Sample.host (Sample.exits 2))
                (Sample.get "/httpcode/teapot")) = 404 /\
  body (served (Sample.host (Sample.exits 2)) (Sample.get "/httpcode/teapot"))
    = "teapot".
Proof.
  pose proof (httpcode_without_integer_is_a_404
                (Sample.host (Sample.exits 2)) (Sample.get "/httpcode")
                eq_refl) as [Hnone _].
  pose proof (httpcode_without_integer_is_a_404
                (Sample.host (Sample.exits 2)) (Sample.get "/httpcode/teapot")
                eq_refl) as [_ Hsome].
  destruct (Hnone eq_refl) as (_ & H1 & H2).
  destruct (Hsome "teapot" eq_refl eq_refl eq_refl) as (_ & H3 & H4).
  auto.
Defined.

(** C7 as stated fails: 200abc is not a number, yet /httpcode/200abc is
    answered 200; and an OPTIONS request for /httpcode is answered 200. *)
Lemma httpcode_reads_a_leading_integer :
  (decimal_integer "200abc" = None /\
   statusCode (served (Sample.host (Sample.exits 2))
                 (Sample.get "/httpcode/200abc")) = 200 /\
   body (served (Sample.host (Sample.exits 2))
           (Sample.get "/httpcode/200abc")) = "200abc") /\
  statusCode (served (Sample.host (Sample.exits 2))
                (Sample.options (Some "/httpcode"))) = 200.
Proof. repeat split. Qed.

Lemma malformed_token_witness :
  (statusCode (served (Sample.host (Sample.prints "az: not logged in"))
                 (Sample.get "/token")) = 200 /\
   headers (served (Sample.host (Sample.prints "az: not logged in"))
              (Sample.get "/token")) !! "Cache-Control" = None /\
   body (served (Sample.host (Sample.prints "az: not logged in"))
           (Sample.get "/token")) = "az: not logged in") /\
  (headers (served (Sample.host (Sample.prints "{}")) (Sample.get "/token"))
     !! "Expires" = None /\
   body (served (Sample.host (Sample.prints "{}")) (Sample.get "/token"))
     = "{}").
Proof.
  pose proof (malformed_token_gets_no_cache_headers
                (Sample.host (Sample.prints "az: not logged in"))
                (Sample.get "/token") "az account get-access-token -o json"
                "az: not logged in" (or_introl eq_refl)) as [_ Hbad].
  assert (Hno : ¬ has_field (JObject ∅) "expiresOn").
  { intros [x Hx]. discriminate. }
  pose proof (malformed_token_gets_no_cache_headers
                (Sample.host (Sample.prints "{}"))
                (Sample.get "/token") "az account get-access-token -o json"
                "{}" (or_intror (ex_intro _ (JObject ∅) (conj eq_refl Hno))))
    as [_ Hempty].
  assert (Hrouted : routed (Sample.get "/token") "token").
  { exists "/token". split; reflexivity. }
  destruct (Hbad Hrouted (list_elem_of_here _ _) eq_refl)
    as (_ & H1 & H2 & _ & H3).
  destruct (Hempty Hrouted (list_elem_of_here _ _) eq_refl)
    as (_ & _ & _ & H4 & H5).
  auto.
Defined.

Lemma unparseable_expiry_witness :
  headers (served (Sample.host (Sample.prints (Sample.tokenText "soon")))
             (Sample.get "/token")) !! "Cache-Control" = Some "private" /\
  headers (served (Sample.host (Sample.prints (Sample.tokenText "soon")))
             (Sample.get "/token")) !! "Expires" = Some "Invalid Date".
Proof.
  destruct (unparseable_expiry_is_an_invalid_date
              (Sample.host (Sample.prints (Sample.tokenText "soon")))
              (Sample.get "/token") "az account get-access-token -o json"
              (Sample.tokenText "soon") {[ "expiresOn" := JString "soon" ]}
              "soon") as (_ & H1 & H2 & _);
    [reflexivity | exists "/token"; split; reflexivity
    | apply list_elem_of_here | reflexivity | reflexivity | reflexivity
    | discriminate | reflexivity | auto].
Defined.

Lemma token_expiry_witness :
  headers (served (Sample.host (Sample.prints
                     (Sample.tokenText "2023-11-14T22:13:20.000Z")))
             (Sample.get "/token")) !! "Cache-Control" = Some "private" /\
  headers (served (Sample.host (Sample.prints
                     (Sample.tokenText "2023-11-14T22:13:20.000Z")))
             (Sample.get "/token")) !! "Expires"
    = Some "Tue, 14 Nov 2023 22:08:20 GMT".
Proof.
  destruct (token_expiry_sets_the_cache_headers
              (Sample.host (Sample.prints
                 (Sample.tokenText "2023-11-14T22:13:20.000Z")))
              (Sample.get "/token") "az account get-access-token -o json"
              (Sample.tokenText "2023-11-14T22:13:20.000Z")
              {[ "expiresOn" := JString "2023-11-14T22:13:20.000Z" ]}
              (JString "2023-11-14T22:13:20.000Z") 1700000000000)
    as (_ & H1 & H2 & _);
    [reflexivity | exists "/token"; split; reflexivity
    | apply list_elem_of_here | reflexivity | reflexivity | reflexivity
    | reflexivity | reflexivity | unfold maxTime; lia | auto].
Defined.

(** C2 as stated fails. An expiresOn that is present but empty gets no
    caching header at all; and for the earliest date there is, no date lies
    300 seconds before it, and the Expires header is the text of the invalid
    date. *)
Lemma empty_or_earliest_expiry_breaks_the_cache_headers :
  (JSON_parse (Sample.host (Sample.prints (Sample.tokenText EmptyString)))
     (Sample.tokenText EmptyString)
   = Some (JObject {[ "expiresOn" := JString EmptyString ]}) /\
   statusCode (served (Sample.host (Sample.prints
                         (Sample.tokenText EmptyString)))
                 (Sample.get "/token")) = 200 /\
   headers (served (Sample.host (Sample.prints
                      (Sample.tokenText EmptyString)))
              (Sample.get "/token")) !! "Cache-Control" = None) /\
  (JSON_parse (Sample.host (Sample.prints
                 (Sample.tokenText "-271821-04-20T00:00:00.000Z")))
     (Sample.tokenText "-271821-04-20T00:00:00.000Z")
   = Some (JObject {[ "expiresOn" := JString "-271821-04-20T00:00:00.000Z" ]})
   /\
   new_Date (Sample.host (Sample.prints
               (Sample.tokenText "-271821-04-20T00:00:00.000Z")))
     (JString "-271821-04-20T00:00:00.000Z") = Return (Some (- maxTime)) /\
   headers (served (Sample.host (Sample.prints
                      (Sample.tokenText "-271821-04-20T00:00:00.000Z")))
              (Sample.get "/token")) !! "Expires" = Some "Invalid Date").
Proof. repeat split. Qed.

(** C4 fails on the catch clause. With an Origin header in the request and
    a CLI that exits with status 2, the 500 response has no header at all,
    where setResponse would have set the content type and reflected the
    origin. *)
Theorem failure_response_has_no_headers :
  statusCode (served (Sample.host (Sample.exits 2)) (Sample.get "/token"))
    = 500 /\
  headers (served (Sample.host (Sample.exits 2)) (Sample.get "/token")) = ∅ /\
  responseHeaders (Sample.get "/token") ∅ !! "Access-Control-Allow-Origin"
    = Some "http://localhost:3000".
Proof. repeat split. Qed.

(** * Further properties of the relay *)

Lemma header_or_header request name fallback :
  header_or request name fallback = or_fallback (header request name) fallback.
Proof.
  unfold header_or, header. destruct (req_headers request); reflexivity.
Qed.

Lemma cli_command_clause key cmd :
  key ≫= cli_command = Some cmd ->
  (switch key = case_token /\ cmd = "account get-access-token -o json") \/
  (switch key = case_logout /\ cmd = "logout") \/
  (switch key = case_login /\ cmd = "login") \/
  (switch key = case_user /\ cmd = "account show -o json").
Proof.
  destruct key as [k |]; [| discriminate]. simpl.
  unfold cli_command, switch, strict_eq.
  destruct (String.eqb k "token"); [intros [= <-]; tauto |].
  destruct (String.eqb k "logout"); [intros [= <-]; tauto |].
  destruct (String.eqb k "login"); [intros [= <-]; tauto |].
  destruct (String.eqb k "user"); [intros [= <-]; tauto |].
  discriminate.
Qed.

Lemma cli_command_none key :
  key ≫= cli_command = None ->
  switch key = case_httpcode \/ switch key = case_default.
Proof.
  destruct key as [k |]; [| intros _; right; reflexivity]. simpl.
  unfold cli_command, switch, strict_eq.
  destruct (String.eqb k "token"); [discriminate |].
  destruct (String.eqb k "logout"); [discriminate |].
  destruct (String.eqb k "login"); [discriminate |].
  destruct (String.eqb k "user"); [discriminate |].
  intros _. destruct (String.eqb k "httpcode"); tauto.
Qed.

Lemma parse_digits_stops d rest acc n :
  digits_value d acc = Some n -> begins_without_digit rest = true ->
  parse_digits (d +:+ rest) (Some acc) = Some n.
Proof.
  intros Hd Hrest. revert acc Hd.
  induction d as [| c d IH]; simpl; intros acc Hd.
  - injection Hd as ->. destruct rest as [| c r]; [reflexivity |].
    simpl in *. apply bool_decide_eq_true in Hrest. rewrite Hrest.
    reflexivity.
  - destruct (is_digit c) as [x |]; [| discriminate]. apply IH. exact Hd.
Qed.

Lemma parse_digits_stops_all d rest n :
  d <> EmptyString -> digits_value d 0 = Some n ->
  begins_without_digit rest = true ->
  parse_digits (d +:+ rest) None = Some n.
Proof.
  destruct d as [| c d]; [congruence |]. intros _ Hd Hrest. simpl in *.
  destruct (is_digit c) as [x |]; [| discriminate].
  apply parse_digits_stops; assumption.
Qed.

(** parseInt reads the integer a text begins with and ignores the rest. *)
Lemma parseInt10_leading s n rest :
  decimal_integer s = Some n -> begins_without_digit rest = true ->
  parseInt10 (Some (s +:+ rest)) = Double.of_Z n.
Proof.
  intros Hs Hrest. revert Hs.
  unfold decimal_integer, parseInt10. simpl default.
  destruct s as [| c s]; [discriminate |].
  assert (Hsigned : forall sign,
    match s with
    | EmptyString => None
    | String _ _ => (fun m => sign * m) <$> digits_value s 0
    end = Some n ->
    match parse_digits (s +:+ rest) None with
    | Some mathInt => Double.of_Z (sign * mathInt)
    | None => NaN
    end = Double.of_Z n).
  { intros sign H. destruct s as [| c' s']; [discriminate |].
    destruct (digits_value (String c' s') 0) as [m |] eqn:E; [| discriminate].
    injection H as <-.
    rewrite (parse_digits_stops_all _ rest m);
      [reflexivity | discriminate | exact E | exact Hrest]. }
  unfold strip_sign at 1.
  destruct (Ascii.eqb_spec c "-") as [-> | Hminus].
  { change (trimStart (String "-" s +:+ rest)) with (String "-" (s +:+ rest)).
    simpl strip_sign. apply Hsigned. }
  destruct (Ascii.eqb_spec c "+") as [-> | Hplus].
  { change (trimStart (String "+" s +:+ rest)) with (String "+" (s +:+ rest)).
    simpl strip_sign. apply Hsigned. }
  intros H.
  destruct (digits_value (String c s) 0) as [m |] eqn:E; [| discriminate].
  injection H as <-.
  assert (Hd : exists d, is_digit c = Some d).
  { simpl in E. destruct (is_digit c) as [d |]; [eauto | discriminate]. }
  destruct Hd as [d Hd].
  change (String c s +:+ rest) with (String c (s +:+ rest)).
  simpl trimStart. rewrite (digit_is_no_space c d Hd).
  unfold strip_sign.
  destruct (digit_is_no_sign c d Hd) as [-> ->].
  change (String c (s +:+ rest)) with (String c s +:+ rest).
  rewrite (parse_digits_stops_all _ rest m);
    [reflexivity | discriminate | exact E | exact Hrest].
Qed.

Lemma TimeClip_beyond x :
  maxTime < Z.abs x -> TimeClip (Finite x 0) = None.
Proof.
  intros Hx. unfold TimeClip, Double.exceeds.
  change (0 <=? 0) with true. cbv iota. rewrite Z.pow_0_r, Z.mul_1_r.
  destruct (Z.ltb_spec maxTime (Z.abs x)); [reflexivity | lia].
Qed.

Lemma slash_free_app s t :
  slash_free s = true -> slash_free t = true -> slash_free (s +:+ t) = true.
Proof.
  intros Hs Ht. induction s as [| c s IH]; simpl in *; [exact Ht |].
  apply andb_true_iff in Hs as [Hc Hs]. rewrite Hc. simpl. apply IH, Hs.
Qed.

Lemma before_slash_app s t :
  slash_free s = true -> before_slash (s +:+ "/" +:+ t) = s.
Proof.
  intros Hs. induction s as [| c s IH]; simpl in *; [reflexivity |].
  apply andb_true_iff in Hs as [Hc Hs].
  apply negb_true_iff in Hc. rewrite Hc, IH by exact Hs. reflexivity.
Qed.

Section Extras.

Variable host : Host.

(** A dispatched request for a route of the CLI is answered by that
    route's clause. *)
Lemma serve_cli_route request u cmd :
  dispatched request u -> first_segment u ≫= cli_command = Some cmd ->
  exists cache,
    serve host request = cli_response host request cmd cache /\
    (cmd = "account get-access-token -o json" \/ cache = fun _ => ∅).
Proof.
  intros Hd Hcmd.
  destruct (cli_command_clause _ _ Hcmd)
    as [[Hsw ->] | [[Hsw ->] | [[Hsw ->] | [Hsw ->]]]].
  - eexists. split; [eapply serve_token; eassumption | tauto].
  - eexists. split; [eapply serve_plain; eauto | tauto].
  - eexists. split; [eapply serve_plain; eauto 6 | tauto].
  - eexists. split; [eapply serve_plain; eauto 6 | tauto].
Qed.

(** The answer to a dispatched request that runs no CLI: a status between
    100 and 999 written by setResponse, or the 500 of the catch clause. *)
Lemma serve_without_cli request u :
  dispatched request u -> first_segment u ≫= cli_command = None ->
  (exists sc text, 100 <= sc <= 999 /\
      serve host request =
      (Return (), answered sc (responseHeaders request ∅) text idle)) \/
  (exists code,
      serve host request =
      (Return (),
       answered 500 ∅
         (JSON_stringify host (ERR_HTTP_INVALID_STATUS_CODE code)) idle)).
Proof.
  intros Hd Hcmd.
  destruct (cli_command_none _ Hcmd) as [Hsw | Hsw].
  - destruct (decide (100 <= Double.ToInt32
       (Double.or_else (parseInt10 (second_segment u)) (Double.of_Z 404))
       <= 999)) as [Hr | Hr].
    + left. eexists _, _. split; [exact Hr |]. eapply serve_httpcode; eauto.
    + right. eexists. eapply serve_httpcode_refused; eauto.
  - left. exists 404, ("Unsupported url " +:+ u). split; [lia |].
    eapply serve_default; eauto.
Qed.

Lemma not_dispatched request :
  strict_eq (method request) "OPTIONS" = false ->
  truthy_string (url request) = true ->
  exists u, dispatched request u.
Proof.
  intros Hm Hu. destruct (url request) as [u |] eqn:Eu; [| discriminate].
  exists u. split; [exact Hm |]. split; [exact Eu |].
  intros ->. discriminate.
Qed.

(** X1. The CLI is run at most once for a request, only when the request
    is not OPTIONS and is addressed to token, logout, login or user, and
    with the fixed command line of that route, whatever the CLI answers:
    nothing of the request reaches the shell. *)
Theorem the_cli_is_run_once_and_only_for_its_routes request :
  invoked host request =
  if strict_eq (method request) "OPTIONS" then []
  else match route_of request ≫= cli_command with
       | Some cmd => ["az " +:+ cmd]
       | None => []
       end.
Proof.
  unfold invoked.
  destruct (strict_eq (method request) "OPTIONS") eqn:Hm.
  { rewrite serve_preflight by exact Hm. reflexivity. }
  destruct (truthy_string (url request)) eqn:Hu.
  2:{ rewrite serve_empty_url by assumption. unfold route_of.
      destruct (url request) as [u |]; [| reflexivity].
      simpl in Hu. destruct (String.eqb_spec u EmptyString) as [E |];
        [rewrite E; reflexivity | discriminate]. }
  destruct (not_dispatched request Hm Hu) as [u Hd].
  unfold route_of. rewrite (proj1 (proj2 Hd)). simpl.
  destruct (first_segment u ≫= cli_command) as [cmd |] eqn:Hcmd.
  - destruct (serve_cli_route request u cmd Hd Hcmd) as (cache & -> & _).
    apply cli_response_invoked.
  - destruct (serve_without_cli request u Hd Hcmd)
      as [(sc & text & _ & ->) | (code & ->)]; reflexivity.
Qed.


Lemma routed_cli_dispatched request route cmd :
  strict_eq (method request) "OPTIONS" = false -> routed request route ->
  cli_command route = Some cmd ->
  exists u, dispatched request u /\ first_segment u ≫= cli_command = Some cmd.
Proof.
  intros Hm Hrouted Hcmd.
  destruct (routed_dispatched _ _ Hm Hrouted) as (u & Hd & Hseg).
  exists u. split; [exact Hd |]. rewrite Hseg. exact Hcmd.
Qed.

(** X3. What the CLI prints is the body, unchanged, of a 200; on the
    routes other than token the headers are the three of setResponse. *)
Theorem cli_output_is_relayed_verbatim request route cmd out :
  strict_eq (method request) "OPTIONS" = false -> routed request route ->
  cli_command route = Some cmd ->
  execSync host ("az " +:+ cmd) = Return out ->
  (serve host request).1 = Return () /\
  statusCode (served host request) = 200 /\
  body (served host request) = out /\
  (route <> "token" ->
   headers (served host request) =
   {[ "Content-Type" := "text/plain";
      "Access-Control-Allow-Origin" := header_or request "origin" "self";
      "Access-Control-Allow-Headers" :=
        header_or request "access-control-request-headers" "*" ]}).
Proof.
  intros Hm Hrouted Hcmd Hex. unfold served.
  destruct (routed_cli_dispatched _ _ _ Hm Hrouted Hcmd) as (u & Hd & Hu).
  destruct (serve_cli_route request u cmd Hd Hu) as (cache & -> & Hcache).
  unfold cli_response. rewrite Hex. simpl. repeat split.
  intros Hroute. destruct Hcache as [-> | ->].
  - exfalso. apply Hroute. revert Hcmd. unfold cli_command.
    destruct (String.eqb_spec route "token") as [-> |]; [reflexivity |].
    destruct (String.eqb route "logout"); [discriminate |].
    destruct (String.eqb route "login"); [discriminate |].
    destruct (String.eqb route "user"); discriminate.
  - unfold responseHeaders. apply (left_id_L ∅ (∪)).
Qed.

(** X4. getCacheHeaders never throws and has no effect; it returns no
    header at all or exactly Cache-Control: private with an Expires. *)
Theorem getCacheHeaders_never_throws tokenJson w :
  exists hdrs,
    getCacheHeaders host tokenJson w = (Return hdrs, w) /\
    (hdrs = ∅ \/
     exists expires,
       hdrs = {[ "Cache-Control" := "private"; "Expires" := expires ]}).
Proof.
  exists (cacheHeaders host tokenJson).
  split; [apply getCacheHeaders_pure | apply cacheHeaders_cases].
Qed.

(** X5. An expiresOn that is present but falsy (an empty string, zero,
    false or null) is treated as absent: no caching header is computed and
    the token is served without them. *)
Theorem falsy_expiry_gets_no_cache_headers request c out o v :
  JSON_parse host out = Some (JObject o) -> o !! "expiresOn" = Some v ->
  ToBoolean v = false ->
  (forall w, getCacheHeaders host (Some out) w = (Return ∅, w)) /\
  (routed request "token" -> c ∈ invoked host request ->
   execSync host c = Return out ->
   statusCode (served host request) = 200 /\
   headers (served host request) !! "Cache-Control" = None /\
   headers (served host request) !! "Expires" = None /\
   body (served host request) = out).
Proof.
  intros Hout Ho Hv.
  assert (Hempty : forall w,
            getCacheHeaders host (Some out) w = (Return ∅, w)).
  { intros w. unfold getCacheHeaders, try_catch, bind, lift, parse. simpl.
    destruct (negb (out =? EmptyString)%string); [| reflexivity].
    rewrite Hout. unfold and_then, Get.
    change (ToBoolean (JObject o)) with true. cbv iota. rewrite Ho.
    change (default JUndefined (Some v)) with v. rewrite Hv. reflexivity. }
  split; [exact Hempty |].
  intros Hrouted Hc Hex. unfold served.
  rewrite (serve_token_output host request c out Hrouted Hc Hex). simpl.
  assert (E : cacheHeaders host (Some out) = ∅).
  { pose proof (getCacheHeaders_pure host (Some out) idle) as Hp.
    rewrite Hempty in Hp. congruence. }
  rewrite E, !responseHeaders_cache by tauto. auto.
Qed.

Lemma serve_token_invoked request c :
  routed request "token" -> c ∈ invoked host request ->
  c = "az account get-access-token -o json" /\
  serve host request =
  cli_response host request "account get-access-token -o json"
    (cacheHeaders host).
Proof.
  intros Hrouted Hc. unfold invoked in Hc.
  destruct (strict_eq (method request) "OPTIONS") eqn:Hm.
  { rewrite serve_preflight in Hc by exact Hm.
    apply elem_of_nil in Hc. contradiction. }
  destruct (routed_dispatched _ _ Hm Hrouted) as (u & Hd & Hseg).
  assert (Hsw : switch (first_segment u) = case_token)
    by (rewrite Hseg; reflexivity).
  rewrite (serve_token host request u Hd Hsw) in *.
  rewrite cli_response_invoked in Hc.
  apply list_elem_of_singleton in Hc. auto.
Qed.

(** X6. When the token command prints nothing, or exits with status 1, the
    request is answered through setResponse: the head is written with
    status 200 and the three reflected headers, without any caching header,
    and the response is ended with an empty body; JSON.parse is not
    consulted. *)
Theorem token_without_output_has_no_cache_headers request c :
  routed request "token" -> c ∈ invoked host request ->
  execSync host c = Return EmptyString \/
  (exists err, execSync host c = Throw err /\ status err = Some 1) ->
  serve host request =
  (Return (),
   answered 200 (responseHeaders request ∅) EmptyString
     (spawned "az account get-access-token -o json" idle)) /\
  headers (served host request) !! "Cache-Control" = None /\
  headers (served host request) !! "Expires" = None /\
  messageBody request (served host request) = EmptyString.
Proof.
  intros Hrouted Hc Hex. unfold served.
  destruct (serve_token_invoked request c Hrouted Hc) as [-> ->].
  unfold cli_response.
  change ("az " +:+ "account get-access-token -o json")
    with "az account get-access-token -o json".
  assert (Hnone : cacheHeaders host None = ∅) by reflexivity.
  assert (Hempty : cacheHeaders host (Some EmptyString) = ∅) by reflexivity.
  destruct Hex as [-> | (err & -> & Hst)].
  - rewrite Hempty. repeat split. apply messageBody_empty. reflexivity.
  - rewrite bool_decide_eq_true_2 by exact Hst. rewrite Hnone.
    repeat split. apply messageBody_empty. reflexivity.
Qed.

(** X7. Every answer whose status is not 500 has the text/plain content
    type and reflects the Origin and Access-Control-Request-Headers of the
    request; a header that is absent or empty is answered with the
    default, self or the wildcard. *)
Theorem answers_reflect_the_origin request :
  statusCode (served host request) <> 500 ->
  headers (served host request) !! "Content-Type" = Some "text/plain" /\
  headers (served host request) !! "Access-Control-Allow-Origin"
    = Some (or_fallback (header request "origin") "self") /\
  headers (served host request) !! "Access-Control-Allow-Headers"
    = Some (or_fallback (header request "access-control-request-headers")
              "*").
Proof.
  intros Hst. rewrite <- !header_or_header.
  destruct (headers_of_every_response host request) as [H | [H _]];
    [exact H | contradiction].
Qed.

(** X8. Of the methods handed to it (CONNECT never is), the listener only
    tells OPTIONS apart: two requests that differ by their method alone,
    neither being OPTIONS, make it run the same command and hand the same
    status, headers and text to the response.  What Node sends differs for
    HEAD only: the response to a HEAD request has no body, and two methods
    other than HEAD get the same body. *)
Theorem the_method_matters_as_OPTIONS_or_HEAD_only request m m' :
  strict_eq m "CONNECT" = false -> strict_eq m' "CONNECT" = false ->
  strict_eq m "OPTIONS" = false -> strict_eq m' "OPTIONS" = false ->
  serve host (with_method request m) = serve host (with_method request m') /\
  (strict_eq m "HEAD" = true ->
   messageBody (with_method request m) (served host (with_method request m))
   = EmptyString) /\
  (strict_eq m "HEAD" = false -> strict_eq m' "HEAD" = false ->
   messageBody (with_method request m) (served host (with_method request m))
   = messageBody (with_method request m')
       (served host (with_method request m'))).
Proof.
  intros _ _ Hm Hm'.
  assert (E : serve host (with_method request m)
              = serve host (with_method request m')).
  { unfold serve, handler. simpl method. rewrite Hm, Hm'. reflexivity. }
  split; [exact E |]. unfold served, messageBody, hasBody. rewrite E.
  simpl method. split.
  - intros ->. reflexivity.
  - intros -> ->. reflexivity.
Qed.

(** X9. Of the request only the method, the URL and the two headers that
    are reflected matter: no other header, such as a credential, changes
    the answer. *)
Theorem other_headers_are_ignored request request' :
  method request = method request' -> url request = url request' ->
  header request "origin" = header request' "origin" ->
  header request "access-control-request-headers"
    = header request' "access-control-request-headers" ->
  serve host request = serve host request'.
Proof.
  intros Hm Hu Ho Ha.
  assert (Ho' : header_or request "origin" "self"
                = header_or request' "origin" "self")
    by (rewrite !header_or_header, Ho; reflexivity).
  assert (Ha' : header_or request "access-control-request-headers" "*"
                = header_or request' "access-control-request-headers" "*")
    by (rewrite !header_or_header, Ha; reflexivity).
  unfold serve, handler, setResponse, responseHeaders.
  rewrite Hm, Hu, Ho', Ha'. reflexivity.
Qed.

(** X10. On /httpcode/<x> the status is the integer <x> begins with, while
    the text handed to the response is the whole of <x>; that text is the
    body of the response, except that a response to HEAD, or with a status
    1xx, 204 or 304, has no body. *)
Theorem httpcode_status_is_the_leading_integer request s rest n :
  strict_eq (method request) "OPTIONS" = false ->
  url request = Some ("/httpcode/" +:+ s +:+ rest) ->
  decimal_integer s = Some n -> 100 <= n <= 999 ->
  begins_without_digit rest = true -> slash_free rest = true ->
  serve host request =
  (Return (), answered n (responseHeaders request ∅) (s +:+ rest) idle) /\
  messageBody request (served host request) =
  if strict_eq (method request) "HEAD" || bodiless n then EmptyString
  else s +:+ rest.
Proof.
  intros Hm Hu Hs Hn Hrest Hfree. unfold served.
  pose proof (dispatched_httpcode request ("/" +:+ s +:+ rest) Hm Hu) as Hd.
  assert (Hsecond :
    second_segment ("/httpcode" +:+ "/" +:+ s +:+ rest) = Some (s +:+ rest)).
  { change (second_segment ("/httpcode" +:+ "/" +:+ s +:+ rest))
      with (Some (before_slash (s +:+ rest))).
    rewrite before_slash_free; [reflexivity |].
    apply slash_free_app; [exact (decimal_slash_free _ _ Hs) | exact Hfree]. }
  rewrite (serve_httpcode host request _ n Hd eq_refl).
  - rewrite Hsecond. split; [reflexivity |].
    change (default EmptyString (Some (s +:+ rest))) with (s +:+ rest).
    change ((Return (),
             answered n (responseHeaders request ∅) (s +:+ rest) idle).2)
      with (answered n (responseHeaders request ∅) (s +:+ rest) idle).
    apply messageBody_answered.
  - rewrite Hsecond, (parseInt10_leading _ _ _ Hs Hrest).
    rewrite of_Z_exact by lia.
    unfold Double.or_else, Double.truthy.
    destruct (Z.eqb_spec n 0); [lia |]. simpl negb. cbv iota.
    apply ToInt32_exact. lia.
  - exact Hn.
Qed.

(** X11. An argument that is an integer of value zero (0, -0, 000) falls
    back to 404, with the argument as body. *)
Theorem httpcode_zero_falls_back_to_404 request s :
  strict_eq (method request) "OPTIONS" = false ->
  url request = Some ("/httpcode/" +:+ s) ->
  decimal_integer s = Some 0 ->
  (serve host request).1 = Return () /\
  statusCode (served host request) = 404 /\
  body (served host request) = s.
Proof.
  intros Hm Hu Hs. unfold served.
  pose proof (dispatched_httpcode request ("/" +:+ s) Hm Hu) as Hd.
  assert (Hsecond : second_segment ("/httpcode" +:+ "/" +:+ s) = Some s).
  { change (second_segment ("/httpcode" +:+ "/" +:+ s))
      with (Some (before_slash s)).
    rewrite before_slash_free; [reflexivity |].
    exact (decimal_slash_free _ _ Hs). }
  rewrite (serve_httpcode host request _ 404 Hd eq_refl).
  - rewrite Hsecond. auto.
  - rewrite Hsecond, (parseInt10_decimal _ _ Hs). reflexivity.
  - lia.
Qed.


(** X13. Path segments after the argument of /httpcode change nothing. *)
Theorem httpcode_ignores_further_segments request arg extra :
  slash_free arg = true ->
  serve host (to request ("/httpcode/" +:+ arg +:+ "/" +:+ extra))
  = serve host (to request ("/httpcode/" +:+ arg)).
Proof.
  intros Hfree.
  destruct (strict_eq (method request) "OPTIONS") eqn:Hm.
  { rewrite !serve_preflight by exact Hm. reflexivity. }
  assert (Hd : dispatched (to request ("/httpcode/" +:+ arg +:+ "/" +:+ extra))
                 ("/httpcode/" +:+ arg +:+ "/" +:+ extra))
    by (apply dispatched_to; [exact Hm | discriminate]).
  assert (Hd' : dispatched (to request ("/httpcode/" +:+ arg))
                  ("/httpcode/" +:+ arg))
    by (apply dispatched_to; [exact Hm | discriminate]).
  assert (Hsecond :
    second_segment ("/httpcode/" +:+ arg +:+ "/" +:+ extra) = Some arg).
  { change (second_segment ("/httpcode/" +:+ arg +:+ "/" +:+ extra))
      with (Some (before_slash (arg +:+ "/" +:+ extra))).
    rewrite before_slash_app by exact Hfree. reflexivity. }
  assert (Hsecond' : second_segment ("/httpcode/" +:+ arg) = Some arg).
  { change (second_segment ("/httpcode/" +:+ arg))
      with (Some (before_slash arg)).
    rewrite before_slash_free by exact Hfree. reflexivity. }
  destruct (decide (100 <= Double.ToInt32
       (Double.or_else (parseInt10 (Some arg)) (Double.of_Z 404))
       <= 999)) as [Hr | Hr].
  - rewrite (serve_httpcode host _ _ _ Hd eq_refl eq_refl),
      (serve_httpcode host _ _ _ Hd' eq_refl eq_refl);
      rewrite ?Hsecond, ?Hsecond'; [reflexivity | exact Hr ..].
  - rewrite (serve_httpcode_refused host _ _ Hd eq_refl),
      (serve_httpcode_refused host _ _ Hd' eq_refl);
      rewrite ?Hsecond, ?Hsecond'; [reflexivity | exact Hr ..].
Qed.

(** X14. For a valid expiry so early that no date lies 300 seconds before
    it, the Expires header is the text of the invalid date. *)
Theorem expiry_before_all_dates_is_invalid request c out o v t :
  JSON_parse host EmptyString = None ->
  routed request "token" -> c ∈ invoked host request ->
  execSync host c = Return out ->
  JSON_parse host out = Some (JObject o) ->
  o !! "expiresOn" = Some v -> ToBoolean v = true ->
  new_Date host v = Return (Some t) -> t - 300000 < - maxTime ->
  statusCode (served host request) = 200 /\
  headers (served host request) !! "Cache-Control" = Some "private" /\
  headers (served host request) !! "Expires" = Some "Invalid Date".
Proof.
  intros Hjson Hrouted Hc Hex Hout Ho Hv Hnew Ht. unfold served.
  rewrite (serve_token_output host request c out Hrouted Hc Hex). simpl.
  assert (Hne : out <> EmptyString) by (intros ->; congruence).
  pose proof (getCacheHeaders_present host out o _ _ idle Hne Hout Ho Hv Hnew)
    as Hp.
  rewrite getCacheHeaders_pure in Hp. injection Hp as ->.
  pose proof (new_Date_range host _ _ Hnew) as Hrange.
  unfold maxTime in *.
  rewrite (of_Z_exact t) by (change (2 ^ 53) with 9007199254740992; lia).
  rewrite (of_Z_exact (5 * 60 * 1000)) by (change (2 ^ 53) with 9007199254740992; lia).
  unfold Double.sub. change (Z.min 0 0) with 0.
  change (2 ^ (0 - 0)) with 1. rewrite !Z.mul_1_r.
  fold (Double.of_Z (t - 5 * 60 * 1000)).
  rewrite of_Z_exact by (change (2 ^ 53) with 9007199254740992; lia).
  rewrite TimeClip_beyond by (unfold maxTime; lia).
  rewrite !responseHeaders_cache by tauto. auto.
Qed.

(** X15. An OPTIONS request is answered 200 with an empty body and the
    reflected headers, whatever its URL, and runs no CLI. *)
Theorem preflight_is_a_200_for_any_url request :
  method request = Some "OPTIONS" ->
  serve host request =
  (Return (),
   {| response :=
        {| headersSent := true; statusCode := 200;
           headers :=
             {[ "Content-Type" := "text/plain";
                "Access-Control-Allow-Origin" :=
                  or_fallback (header request "origin") "self";
                "Access-Control-Allow-Headers" :=
                  or_fallback
                    (header request "access-control-request-headers") "*" ]};
           body := EmptyString; finished := true |};
      childProcesses := [] |}).
Proof.
  intros Hm. rewrite serve_preflight by (rewrite Hm; reflexivity).
  unfold answered, responseHeaders. rewrite <- !header_or_header.
  rewrite (left_id_L ∅ (∪)). reflexivity.
Qed.

End Extras.


Lemma cli_output_witness :
  statusCode (served (Sample.host (Sample.prints "Logged out"))
                (Sample.get "/logout")) = 200 /\
  body (served (Sample.host (Sample.prints "Logged out"))
          (Sample.get "/logout")) = "Logged out".
Proof.
  destruct (cli_output_is_relayed_verbatim
              (Sample.host (Sample.prints "Logged out"))
              (Sample.get "/logout") "logout" "logout" "Logged out")
    as (_ & H1 & H2 & _);
    [reflexivity | exists "/logout"; split; reflexivity
    | reflexivity | reflexivity | auto].
Defined.

Lemma falsy_expiry_witness :
  headers (served (Sample.host (Sample.prints (Sample.tokenText EmptyString)))
             (Sample.get "/token")) !! "Cache-Control" = None /\
  body (served (Sample.host (Sample.prints (Sample.tokenText EmptyString)))
          (Sample.get "/token")) = Sample.tokenText EmptyString.
Proof.
  destruct (falsy_expiry_gets_no_cache_headers
              (Sample.host (Sample.prints (Sample.tokenText EmptyString)))
              (Sample.get "/token") "az account get-access-token -o json"
              (Sample.tokenText EmptyString)
              {[ "expiresOn" := JString EmptyString ]} (JString EmptyString))
    as [_ H]; [reflexivity | reflexivity | reflexivity |].
  destruct H as (_ & H1 & _ & H2);
    [exists "/token"; split; reflexivity | apply list_elem_of_here
    | reflexivity | auto].
Defined.

Lemma token_without_output_witness :
  served (Sample.host (Sample.prints EmptyString)) (Sample.get "/token")
  = {| headersSent := true; statusCode := 200;
       headers := {[ "Content-Type" := "text/plain";
                     "Access-Control-Allow-Origin" := "http://localhost:3000";
                     "Access-Control-Allow-Headers" := "*" ]};
       body := EmptyString; finished := true |} /\
  headers (served (Sample.host (Sample.exits 1)) (Sample.get "/token"))
    !! "Expires" = None.
Proof.
  destruct (token_without_output_has_no_cache_headers
              (Sample.host (Sample.prints EmptyString))
              (Sample.get "/token") "az account get-access-token -o json")
    as (H1 & _);
    [exists "/token"; split; reflexivity | apply list_elem_of_here
    | left; reflexivity |].
  destruct (token_without_output_has_no_cache_headers
              (Sample.host (Sample.exits 1))
              (Sample.get "/token") "az account get-access-token -o json")
    as (_ & _ & H2 & _);
    [exists "/token"; split; reflexivity | apply list_elem_of_here
    | right; eexists; split; reflexivity |].
  split; [| exact H2]. unfold served. rewrite H1. reflexivity.
Defined.

Lemma reflected_origin_witness :
  headers (served (Sample.host (Sample.exits 2)) (Sample.get "/foo"))
    !! "Access-Control-Allow-Origin" = Some "http://localhost:3000" /\
  headers (served (Sample.host (Sample.exits 2)) (Sample.get "/foo"))
    !! "Access-Control-Allow-Headers" = Some "*".
Proof.
  destruct (answers_reflect_the_origin (Sample.host (Sample.exits 2))
              (Sample.get "/foo")) as (_ & H1 & H2);
    [discriminate | auto].
Defined.

Lemma method_witness :
  serve (Sample.host (Sample.prints "Logged out"))
    (with_method (Sample.get "/logout") (Some "HEAD"))
  = serve (Sample.host (Sample.prints "Logged out"))
      (with_method (Sample.get "/logout") (Some "POST")) /\
  messageBody (with_method (Sample.get "/logout") (Some "HEAD"))
    (served (Sample.host (Sample.prints "Logged out"))
       (with_method (Sample.get "/logout") (Some "HEAD"))) = EmptyString /\
  messageBody (with_method (Sample.get "/logout") (Some "POST"))
    (served (Sample.host (Sample.prints "Logged out"))
       (with_method (Sample.get "/logout") (Some "POST"))) = "Logged out".
Proof.
  destruct (the_method_matters_as_OPTIONS_or_HEAD_only
              (Sample.host (Sample.prints "Logged out"))
              (Sample.get "/logout") (Some "HEAD") (Some "POST")
              eq_refl eq_refl eq_refl eq_refl) as (H1 & H2 & _).
  destruct (the_method_matters_as_OPTIONS_or_HEAD_only
              (Sample.host (Sample.prints "Logged out"))
              (Sample.get "/logout") (Some "POST") (Some "GET")
              eq_refl eq_refl eq_refl eq_refl) as (_ & _ & H3).
  split; [exact H1 |]. split; [exact (H2 eq_refl) |].
  rewrite (H3 eq_refl eq_refl). reflexivity.
Defined.

Lemma other_headers_witness :
  serve (Sample.host (Sample.prints "Logged out"))
    {| method := Some "GET"; url := Some "/logout";
       req_headers :=
         Some (<[ "authorization" := "Bearer none" ]> Sample.browser) |}
  = serve (Sample.host (Sample.prints "Logged out")) (Sample.get "/logout").
Proof.
  apply other_headers_are_ignored; reflexivity.
Defined.

Lemma leading_integer_witness :
  (statusCode (served (Sample.host (Sample.exits 2))
                 (Sample.get "/httpcode/503?retry=1")) = 503 /\
   messageBody (Sample.get "/httpcode/503?retry=1")
     (served (Sample.host (Sample.exits 2))
        (Sample.get "/httpcode/503?retry=1")) = "503?retry=1") /\
  (statusCode (served (Sample.host (Sample.exits 2))
                 (Sample.get "/httpcode/204abc")) = 204 /\
   body (served (Sample.host (Sample.exits 2))
           (Sample.get "/httpcode/204abc")) = "204abc" /\
   messageBody (Sample.get "/httpcode/204abc")
     (served (Sample.host (Sample.exits 2))
        (Sample.get "/httpcode/204abc")) = EmptyString).
Proof.
  destruct (httpcode_status_is_the_leading_integer
              (Sample.host (Sample.exits 2))
              (Sample.get "/httpcode/503?retry=1") "503" "?retry=1" 503)
    as (H1 & H2);
    [reflexivity | reflexivity | reflexivity | lia | reflexivity
    | reflexivity |].
  destruct (httpcode_status_is_the_leading_integer
              (Sample.host (Sample.exits 2))
              (Sample.get "/httpcode/204abc") "204" "abc" 204)
    as (H3 & H4);
    [reflexivity | reflexivity | reflexivity | lia | reflexivity
    | reflexivity |].
  unfold served in *. rewrite H1 in *. rewrite H3 in *.
  repeat split; assumption.
Defined.

Lemma httpcode_zero_witness :
  statusCode (served (Sample.host (Sample.exits 2))
                (Sample.get "/httpcode/-000")) = 404 /\
  body (served (Sample.host (Sample.exits 2)) (Sample.get "/httpcode/-000"))
    = "-000".
Proof.
  destruct (httpcode_zero_falls_back_to_404 (Sample.host (Sample.exits 2))
              (Sample.get "/httpcode/-000") "-000") as (_ & H1 & H2);
    [reflexivity | reflexivity | reflexivity | auto].
Defined.


Lemma httpcode_segments_witness :
  serve (Sample.host (Sample.exits 2)) (Sample.get "/httpcode/201/a/b")
  = serve (Sample.host (Sample.exits 2)) (Sample.get "/httpcode/201").
Proof.
  exact (httpcode_ignores_further_segments (Sample.host (Sample.exits 2))
           (Sample.get "/") "201" "a/b" eq_refl).
Defined.

Lemma expiry_before_all_dates_witness :
  headers (served (Sample.host (Sample.prints
                     (Sample.tokenText "-271821-04-20T00:00:00.000Z")))
             (Sample.get "/token")) !! "Expires" = Some "Invalid Date".
Proof.
  destruct (expiry_before_all_dates_is_invalid
              (Sample.host (Sample.prints
                 (Sample.tokenText "-271821-04-20T00:00:00.000Z")))
              (Sample.get "/token") "az account get-access-token -o json"
              (Sample.tokenText "-271821-04-20T00:00:00.000Z")
              {[ "expiresOn" := JString "-271821-04-20T00:00:00.000Z" ]}
              (JString "-271821-04-20T00:00:00.000Z") (- maxTime))
    as (_ & _ & H);
    [reflexivity | exists "/token"; split; reflexivity
    | apply list_elem_of_here | reflexivity | reflexivity | reflexivity
    | reflexivity | reflexivity | unfold maxTime; lia | exact H].
Defined.

Lemma preflight_witness :
  served (Sample.host (Sample.exits 2)) (Sample.options (Some "/token"))
  = {| headersSent := true; statusCode := 200;
       headers := {[ "Content-Type" := "text/plain";
                     "Access-Control-Allow-Origin" := "http://localhost:3000";
                     "Access-Control-Allow-Headers" := "*" ]};
       body := EmptyString; finished := true |}.
Proof.
  unfold served.
  rewrite (preflight_is_a_200_for_any_url (Sample.host (Sample.exits 2))
             (Sample.options (Some "/token")) eq_refl).
  reflexivity.
Defined.

(** * Properties of the test runner's configuration *)

Lemma trimStart_blank s : blank s = true -> trimStart s = EmptyString.
Proof.
  induction s as [| c s IH]; simpl; [reflexivity |].
  destruct (is_white_space c); simpl; [exact IH | discriminate].
Qed.

Lemma environment_cases env :
  Playwright.environment env ∈ Playwright.validEnvironments ->
  Playwright.environment env = "prod" \/ Playwright.environment env = "int" \/
  Playwright.environment env = "dev" \/ Playwright.environment env = "local" \/
  Playwright.environment env = "canary".
Proof.
  unfold Playwright.validEnvironments.
  rewrite !elem_of_cons, elem_of_nil. tauto.
Qed.

Lemma load_accepted env :
  Playwright.environment env ∈ Playwright.validEnvironments ->
  Playwright.load env =
  inr (default (Playwright.localConfig env)
         (Playwright.configMap env !! Playwright.environment env),
       Playwright.oaiBaseUrlMap !!
         or_fallback (Some (Playwright.environment env)) "local").
Proof.
  intros H. unfold Playwright.load.
  rewrite bool_decide_eq_true_2 by exact H. reflexivity.
Qed.

(** X16. An unset or empty ENVIRONMENT loads the local configuration, with
    the base URLs of dev; an ENVIRONMENT made of white space only is not
    defaulted but refused. *)
Theorem environment_defaults_to_local_unless_blank env :
  (Playwright.ENVIRONMENT env = None \/
   Playwright.ENVIRONMENT env = Some EmptyString ->
   Playwright.load env
   = inr (Playwright.localConfig env, Some "https://dev.oai.azure.com/") /\
   Playwright.baseURL (Playwright.use (Playwright.localConfig env))
   = Some "https://dev.ai.azure.com/") /\
  (forall e, Playwright.ENVIRONMENT env = Some e -> e <> EmptyString ->
     blank e = true ->
     Playwright.load env
     = inl "Invalid environment: . Expected one of prod, int, dev, local, canary").
Proof.
  split.
  - intros H.
    assert (E : Playwright.environment env = "local").
    { unfold Playwright.environment. destruct H as [-> | ->]; reflexivity. }
    split.
    + rewrite load_accepted; rewrite E; [reflexivity |].
      unfold Playwright.validEnvironments.
      rewrite !elem_of_cons. tauto.
    + unfold Playwright.localConfig, Playwright.defaultConfig. simpl.
      rewrite E. reflexivity.
  - intros e He Hne Hblank.
    assert (E : Playwright.environment env = EmptyString).
    { unfold Playwright.environment, Playwright.trim. rewrite He. simpl.
      destruct (String.eqb_spec e EmptyString); [contradiction |].
      rewrite trimStart_blank by exact Hblank. reflexivity. }
    unfold Playwright.load. rewrite E. reflexivity.
Qed.

(** X17. Every configuration that loads has a base URL of each kind, and
    its last web server is the token server, awaited on the port the relay
    listens on and reused when it already runs. *)
Theorem loaded_configuration_awaits_the_relay env config oaiBaseURL :
  Playwright.load env = inr (config, oaiBaseURL) ->
  is_Some (Playwright.baseURL (Playwright.use config)) /\
  is_Some oaiBaseURL /\
  last (Playwright.webServer config) = Some Playwright.tokenServer /\
  Playwright.port Playwright.tokenServer = listenPort /\
  Playwright.reuseExistingServer Playwright.tokenServer = true.
Proof.
  intros Hload.
  assert (Hvalid : Playwright.environment env ∈ Playwright.validEnvironments).
  { unfold Playwright.load in Hload.
    destruct (bool_decide (Playwright.environment env
                           ∈ Playwright.validEnvironments)) eqn:E;
      [apply bool_decide_eq_true in E; exact E | discriminate]. }
  rewrite (load_accepted env Hvalid) in Hload.
  injection Hload as <- <-.
  unfold Playwright.configMap, Playwright.devConfig, Playwright.localConfig,
    Playwright.defaultConfig.
  destruct (environment_cases env Hvalid) as [E | [E | [E | [E | E]]]];
    rewrite E; repeat split; vm_compute; eauto.
Qed.

(** X18. The canary environment is accepted but has no configuration of its
    own: it gets the local one, with the base URLs of canary. *)
Theorem canary_runs_the_local_configuration env :
  Playwright.environment env = "canary" ->
  Playwright.load env
  = inr (Playwright.localConfig env, Some "https://canary.oai.azure.com/") /\
  Playwright.baseURL (Playwright.use (Playwright.localConfig env))
  = Some "https://eastus2euap.ai.azure.com/" /\
  Playwright.ignoreHTTPSErrors (Playwright.use (Playwright.localConfig env))
  = Some true /\
  Playwright.webServer (Playwright.localConfig env)
  = [Playwright.startAIStudioWebServer; Playwright.tokenServer].
Proof.
  intros E. split; [| split; [| split]].
  - rewrite load_accepted; rewrite E; [reflexivity |].
    unfold Playwright.validEnvironments. rewrite !elem_of_cons. tauto.
  - unfold Playwright.localConfig, Playwright.defaultConfig. simpl.
    rewrite E. reflexivity.
  - reflexivity.
  - reflexivity.
Qed.

Lemma environment_defaults_witness :
  Playwright.load {| Playwright.ENVIRONMENT := None;
                     Playwright.TAG := None; Playwright.CI := None |}
  = inr (Playwright.localConfig
           {| Playwright.ENVIRONMENT := None;
              Playwright.TAG := None; Playwright.CI := None |},
         Some "https://dev.oai.azure.com/") /\
  Playwright.load {| Playwright.ENVIRONMENT := Some "  ";
                     Playwright.TAG := None; Playwright.CI := None |}
  = inl "Invalid environment: . Expected one of prod, int, dev, local, canary".
Proof.
  split.
  - exact (proj1 (proj1 (environment_defaults_to_local_unless_blank
             {| Playwright.ENVIRONMENT := None;
                Playwright.TAG := None; Playwright.CI := None |})
             (or_introl eq_refl))).
  - apply (proj2 (environment_defaults_to_local_unless_blank
             {| Playwright.ENVIRONMENT := Some "  ";
                Playwright.TAG := None; Playwright.CI := None |}) "  ");
      [reflexivity | discriminate | reflexivity].
Defined.

Lemma loaded_configuration_witness :
  last (Playwright.webServer
          (Playwright.devConfig
             {| Playwright.ENVIRONMENT := Some " dev ";
                Playwright.TAG := Some "nightly"; Playwright.CI := Some "1" |}))
  = Some Playwright.tokenServer.
Proof.
  exact (proj1 (proj2 (proj2 (loaded_configuration_awaits_the_relay
           {| Playwright.ENVIRONMENT := Some " dev ";
              Playwright.TAG := Some "nightly"; Playwright.CI := Some "1" |}
           _ _ eq_refl)))).
Defined.

Lemma canary_witness :
  Playwright.load {| Playwright.ENVIRONMENT := Some "canary";
                     Playwright.TAG := None; Playwright.CI := None |}
  = inr (Playwright.localConfig
           {| Playwright.ENVIRONMENT := Some "canary";
              Playwright.TAG := None; Playwright.CI := None |},
         Some "https://canary.oai.azure.com/").
Proof.
  exact (proj1 (canary_runs_the_local_configuration
           {| Playwright.ENVIRONMENT := Some "canary";
              Playwright.TAG := None; Playwright.CI := None |} eq_refl)).
Defined.
